(** * Epic Notes: account settings routes over the Prisma store

    A shallow embedding of the route handlers under
    [app/routes/settings+/] (two-factor enrolment and verification,
    sign-out of other sessions, provider connections, e-mail change)
    together with the slice of the Prisma client they call.

    JavaScript objects that are built with spreads and handed to the
    ORM are finite maps from field names to values; tables are lists of
    rows in insertion order; handlers run in a state-and-exception monad
    over the database. *)

From stdpp Require Import base strings gmap list.
From Stdlib Require Import ZArith.

Open Scope Z_scope.

(** ** JavaScript values and objects *)

Inductive value :=
| VStr (s : string)
| VNum (n : Z)
| VDate (ms : Z)
| VNull.

#[global] Instance value_eq_dec : EqDecision value.
Proof. solve_decision. Defined.

Abbreviation object := (gmap string value).

(** ** Tables *)

Record Session := mkSession {
  session_id : string;
  session_userId : string;
  session_expirationDate : Z
}.

Record Connection := mkConnection {
  connection_id : string;
  connection_userId : string;
  connection_providerName : string;
  connection_providerId : string;
  connection_createdAt : Z
}.

Record User := mkUser {
  user_id : string;
  user_email : string;
  user_username : string
}.

Record Password := mkPassword {
  password_userId : string;
  password_hash : string
}.

#[global] Instance Session_eq_dec : EqDecision Session.
Proof. solve_decision. Defined.
#[global] Instance Connection_eq_dec : EqDecision Connection.
Proof. solve_decision. Defined.
#[global] Instance User_eq_dec : EqDecision User.
Proof. solve_decision. Defined.
#[global] Instance Password_eq_dec : EqDecision Password.
Proof. solve_decision. Defined.

(** The database: one list of rows per Prisma model the routes touch.
    Verification rows are objects because the handlers write them through
    object spreads; the other rows are only read field by field. *)
Record db := mkDb {
  verification : list object;
  session : list Session;
  connection : list Connection;
  user : list User;
  password : list Password
}.

Definition set_verification (rows : list object) (d : db) : db :=
  mkDb rows (session d) (connection d) (user d) (password d).
Definition set_session (rows : list Session) (d : db) : db :=
  mkDb (verification d) rows (connection d) (user d) (password d).
Definition set_connection (rows : list Connection) (d : db) : db :=
  mkDb (verification d) (session d) rows (user d) (password d).

(** ** The handler monad: database state plus thrown errors *)

Inductive exn :=
| P2025                                   (* Prisma: record to update/delete not found *)
| P2002                                   (* Prisma: unique constraint failed *)
| ThrownResponse (status : Z) (text : string).

Inductive result (A : Type) :=
| Ok (a : A)
| Throw (e : exn).
Arguments Ok {A} a.
Arguments Throw {A} e.

Definition prisma (A : Type) : Type := db → result A * db.

#[global] Instance prisma_ret : MRet prisma := λ A a d, (Ok a, d).
#[global] Instance prisma_bind : MBind prisma := λ A B k m d,
  match m d with
  | (Ok a, d') => k a d'
  | (Throw e, d') => (Throw e, d')
  end.

Definition throw {A} (e : exn) : prisma A := λ d, (Throw e, d).

(** [invariantResponse(condition, message)] of @epic-web/invariant: throws
    a 400 response carrying the message when the condition is falsy. *)
Definition invariantResponse (condition : bool) (message : string) : prisma unit :=
  if condition then mret tt else throw (ThrownResponse 400 message).

(** ** prisma.verification *)

(** The compound unique key [target_type] used by every [where] clause. *)
Definition target_type (ty tg : string) (row : object) : Prop :=
  row !! "type" = Some (VStr ty) ∧ row !! "target" = Some (VStr tg).

#[global] Instance target_type_dec ty tg row : Decision (target_type ty tg row).
Proof. unfold target_type. apply _. Defined.

Definition key_of (row : object) : option value * option value :=
  (row !! "target", row !! "type").

(** The unique constraint on (target, type) that the store enforces. *)
Definition unique_target_type (rows : list object) : Prop :=
  NoDup (key_of <$> rows).

Module verification_.

Definition findUnique (ty tg : string) : prisma (option object) := λ d,
  (Ok (snd <$> list_find (target_type ty tg) (verification d)), d).

(** [deleteMany({ where: { type, target } })]: removes every matching
    row and never fails; returns the number of rows removed. *)
Definition deleteMany (ty tg : string) : prisma nat := λ d,
  let rows := verification d in
  let kept := filter (λ row, ¬ target_type ty tg row) rows in
  (Ok (length rows - length kept)%nat, set_verification kept d).

(** Writing [data] over the row at index [i]; the write is refused when
    it would give two rows the same (target, type). *)
Definition write_at (i : nat) (row data : object) : prisma object := λ d,
  let rows := verification d in
  let row' := data ∪ row in
  if decide (key_of row' ∈ key_of <$> delete i rows)
  then (Throw P2002, d)
  else (Ok row', set_verification (<[i := row']> rows) d).

(** [update({ where: { target_type }, data })]. *)
Definition update (ty tg : string) (data : object) : prisma object := λ d,
  match list_find (target_type ty tg) (verification d) with
  | None => (Throw P2025, d)
  | Some (i, row) => write_at i row data d
  end.

(** Modelled from the spec: the columns a new VerificationRecord gets
    besides the supplied data (section 3: [id], [createdAt], and
    [expiresAt] which is null unless given); the ORM schema is not among
    the sources. *)
Definition defaults (newId : string) (now : Z) : object :=
  {[ "id" := VStr newId; "createdAt" := VDate now; "expiresAt" := VNull ]}.

Definition create (data : object) (newId : string) (now : Z) : prisma object := λ d,
  let rows := verification d in
  let row := data ∪ defaults newId now in
  if decide (key_of row ∈ key_of <$> rows)
  then (Throw P2002, d)
  else (Ok row, set_verification (rows ++ [row]) d).

(** [upsert({ where: { target_type }, create, update })]. *)
Definition upsert (ty tg : string) (create_data update_data : object)
    (newId : string) (now : Z) : prisma object := λ d,
  match list_find (target_type ty tg) (verification d) with
  | Some (i, row) => write_at i row update_data d
  | None => create create_data newId now d
  end.

End verification_.

(** ** HTTP responses of the handlers *)

Inductive issue :=
| ZodIssue (path : string)                      (* raised by the schema itself *)
| CustomIssue (path : string) (message : string) (* raised with ctx.addIssue *)
| FormError (message : string)                  (* reply({ formErrors }) *).

#[global] Instance issue_eq_dec : EqDecision issue.
Proof. solve_decision. Defined.

Record toast := mkToast {
  toast_type : string;
  toast_title : string;
  toast_description : string
}.

Inductive body :=
| Is2FAEnabled (b : bool)            (* { is2FAEnabled } *)
| Reply (issues : list issue)        (* { result: submission.reply() } *)
| StatusSuccess                      (* { status: "success" } *).

Inductive response :=
| json (b : body) (status : Z)
| redirect (url : string)
| redirectWithToast (url : string) (t : toast)
| redirectWithSession (url : string) (key : string) (val : string).

(** ** Form parsing with zod *)

(** Outcome of a zod parse: clean, carrying issues but still holding a
    value (refinements are run), or aborted (refinements are skipped). *)
Inductive zod_parsed (A : Type) :=
| Valid (v : A)
| Dirty (v : A) (issues : list issue)
| Aborted (issues : list issue).
Arguments Valid {A} v.
Arguments Dirty {A} v issues.
Arguments Aborted {A} issues.

(** What [parseWithZod] hands back: the value when no issue was raised. *)
Inductive submission (A : Type) :=
| success (v : A)
| error (issues : list issue).
Arguments success {A} v.
Arguments error {A} issues.

(** [schema.superRefine(callback)] under [parseWithZod]: the callback
    runs on every value the schema produced and its issues are added. *)
Definition with_refinement {A} (callback : A → prisma (list issue))
    (parsed : zod_parsed A) : prisma (submission A) :=
  match parsed with
  | Valid v =>
      extra ← callback v;
      mret (match extra with [] => success v | _ => error extra end)
  | Dirty v issues =>
      extra ← callback v;
      mret (error (issues ++ extra))
  | Aborted issues => mret (error issues)
  end.

(** ** settings/profile/two-factor *)

Definition twoFAVerificationType : string := "2fa".
Definition twoFAVerifyVerificationType : string := "2fa-verify".

(** JavaScript's [Boolean(x)] on the result of a lookup. *)
Definition Boolean {A} (x : option A) : bool :=
  match x with Some _ => true | None => false end.

Module TwoFactorIndex.

(** [loader]: two-factor authentication is reported enabled exactly when
    a verification of type "2fa" exists for the user. *)
Definition loader (userId : string) : prisma response :=
  verification ← verification_.findUnique twoFAVerificationType userId;
  mret (json (Is2FAEnabled (Boolean verification)) 200).

(** [const { otp: _otp, ...config } = generateTOTP()] followed by
    [{ ...config, type, target: userId }]. *)
Definition verificationData (generated : object) (userId : string) : object :=
  let config := delete "otp" generated in
  <["target" := VStr userId]>
    (<["type" := VStr twoFAVerifyVerificationType]> config).

(** [action]: [generated] is what the call to [generateTOTP()] returned,
    [newId] and [now] are the id and timestamp the store would give a
    new row. *)
Definition action (generated : object) (newId : string) (now : Z)
    (userId : string) : prisma response :=
  let data := verificationData generated userId in
  _ ← verification_.upsert twoFAVerifyVerificationType userId data data newId now;
  mret (redirect "/settings/profile/two-factor/verify").

End TwoFactorIndex.

(** ** settings/profile/two-factor/verify *)

Module TwoFactorVerify.

(** What [ActionSchema] parses a form into. *)
Inductive intent :=
| cancel
| verify (code : string).

(** [CancelSchema], [VerifySchema] and their discriminated union on
    ["intent"]; [code] is [z.string().min(6).max(6)]. A missing or empty
    field is a type error, a code of the wrong length is a failed check.
    Codes are ASCII, so the length in bytes is the JavaScript length. *)
Definition VerifySchema (formData : gmap string string) : zod_parsed intent :=
  match formData !! "code" with
  | None => Aborted [ZodIssue "code"]
  | Some code =>
      if decide (code = "") then Aborted [ZodIssue "code"]
      else if decide (String.length code = 6%nat) then Valid (verify code)
      else Dirty (verify code) [ZodIssue "code"]
  end.

Definition ActionSchema (formData : gmap string string) : zod_parsed intent :=
  match formData !! "intent" with
  | Some i =>
      if decide (i = "cancel") then Valid cancel
      else if decide (i = "verify") then VerifySchema formData
      else Aborted [ZodIssue "intent"]
  | None => Aborted [ZodIssue "intent"]
  end.

Section routes.

(** [isCodeValid({ code, type, target })] of [verify.server.ts], which
    is not among the sources: a query that reads the verification
    table at the current time and answers with a boolean. *)
Variable isCodeValid : string → string → string → Z → list object → bool.

(** The issues the [superRefine] callback adds for a parsed value. *)
Definition refinement (userId : string) (now : Z) (data : intent)
    : prisma (list issue) :=
  match data with
  | cancel => mret []
  | verify code => λ d,
      let codeIsValid :=
        isCodeValid code twoFAVerifyVerificationType userId now (verification d) in
      if codeIsValid then (Ok [], d)
      else (Ok [CustomIssue "code" "Invalid code"], d)
  end.

(** [parseWithZod(formData, { schema: ActionSchema.superRefine(...) })] *)
Definition parseWithZod (userId : string) (now : Z)
    (formData : gmap string string) : prisma (submission intent) :=
  with_refinement (refinement userId now) (ActionSchema formData).

Definition enabledToast : toast :=
  mkToast "success" "Enabled" "Two-factor authentication has been enabled.".

(** [action]: [userId] is what [requireUserId(request)] returned and
    [now] the clock reading of the request. A form post is parsed to a
    value or to issues, so a submission that is not a success has status
    "error" and is answered with 400. *)
Definition action (userId : string) (now : Z)
    (formData : gmap string string) : prisma response :=
  submission ← parseWithZod userId now formData;
  match submission with
  | error issues => mret (json (Reply issues) 400)
  | success cancel =>
      _ ← verification_.deleteMany twoFAVerifyVerificationType userId;
      mret (redirect "/settings/profile/two-factor")
  | success (verify _) =>
      _ ← verification_.update twoFAVerifyVerificationType userId
            {[ "type" := VStr twoFAVerificationType ]};
      mret (redirectWithToast "/settings/profile/two-factor" enabledToast)
  end.

End routes.

(** The two forms the page can post. *)
Definition verifyForm (code : string) : gmap string string :=
  {[ "intent" := "verify"; "code" := code ]}.
Definition cancelForm : gmap string string :=
  {[ "intent" := "cancel" ]}.

End TwoFactorVerify.

(** ** settings/profile: signing out of the other sessions *)

Module session_.

(** [deleteMany({ where })]: removes every row matching the filter. *)
Definition deleteMany (where_ : Session → Prop) `{!∀ s, Decision (where_ s)}
    : prisma nat := λ d,
  let rows := session d in
  let kept := filter (λ s, ¬ where_ s) rows in
  (Ok (length rows - length kept)%nat, set_session kept d).

End session_.

Module Profile.

(** JavaScript truthiness of [authSession.get(sessionKey)]: a missing
    value and the empty string are both falsy. *)
Definition truthy (sessionId : option string) : bool :=
  match sessionId with
  | Some s => bool_decide (s ≠ "")
  | None => false
  end.

(** [signOutOfSessionsAction]: [sessionId] is what the auth cookie of the
    request holds under [sessionKey]. *)
Definition signOutOfSessionsAction (sessionId : option string)
    (userId : string) : prisma response :=
  _ ← invariantResponse (truthy sessionId)
        "You must be authenticated to sign out of other sessions";
  _ ← session_.deleteMany
        (λ s, session_userId s = userId ∧ Some (session_id s) ≠ sessionId);
  mret (json StatusSuccess 200).

End Profile.

(** ** settings/profile/connections *)

Module connection_.

(** [delete({ where: { id, userId } })]: removes the row, and fails when
    there is none. *)
Definition delete (id userId : string) : prisma Connection := λ d,
  let rows := connection d in
  match list_find (λ c, connection_id c = id ∧ connection_userId c = userId) rows with
  | None => (Throw P2025, d)
  | Some (i, row) => (Ok row, set_connection (base.delete i rows) d)
  end.

End connection_.

Module user_.

(** What [findUnique({ select: { password: { select: { userId } },
    _count: { select: { connections } } }, where: { id } })] returns. *)
Record selected := mkSelected {
  selected_password : option string;
  selected_count_connections : nat
}.

Definition findUnique (id : string) : prisma (option selected) := λ d,
  match list_find (λ u, user_id u = id) (user d) with
  | None => (Ok None, d)
  | Some _ =>
      let password :=
        (password_userId ∘ snd) <$> list_find (λ p, password_userId p = id) (password d) in
      let count := length (filter (λ c, connection_userId c = id) (connection d)) in
      (Ok (Some (mkSelected password count)), d)
  end.

End user_.

Module Connections.

Definition userCanDeleteConnections (userId : string) : prisma bool :=
  user ← user_.findUnique userId;
  match user with
  | Some (user_.mkSelected (Some _) _) =>
      (* user can delete their connections if they have a password *)
      mret true
  | Some (user_.mkSelected None count) =>
      (* users have to have more than one remaining connection to delete one *)
      mret (if decide (count = 0%nat) then false else bool_decide (1 < count)%nat)
  | None => mret false
  end.

Definition action (userId : string) (formData : gmap string string)
    : prisma response :=
  _ ← invariantResponse
        (bool_decide (formData !! "intent" = Some "delete-connection"))
        "Invalid intent";
  allowed ← userCanDeleteConnections userId;
  _ ← invariantResponse allowed
        "You cannot delete your last connection unless you have a password.";
  match formData !! "connectionId" with
  | None => throw (ThrownResponse 400 "Invalid connectionId")
  | Some connectionId =>
      _ ← connection_.delete connectionId userId;
      mret (json StatusSuccess 200)
  end.

End Connections.

(** ** One-time codes: generator, validator and request *)

Definition bytes_of_string (s : string) : list Z :=
  (λ c, Z.of_N (Ascii.N_of_ascii c)) <$> String.list_ascii_of_string s.

(** Modelled from the spec: the shape of what the code generator returns
    (section 4.1: secret, algorithm, period, digits, charSet, otp); the
    generator [generateTOTP] comes from a library that is not among the
    sources. *)
Record generated := mkGenerated {
  secret : string;
  algorithm : string;
  period : Z;
  digits : Z;
  charSet : string;
  otp : string
}.

(** The generator's answer as the JavaScript object the routes receive. *)
Definition generated_object (g : generated) : object :=
  {[ "secret" := VStr (secret g); "algorithm" := VStr (algorithm g);
     "period" := VNum (period g); "digits" := VNum (digits g);
     "charSet" := VStr (charSet g); "otp" := VStr (otp g) ]}.

Module Code.

Section codes.

(** The keyed hash behind time-based codes, [hmac algorithm key message],
    on byte lists. *)
Variable hmac : string → list Z → list Z → list Z.

(** Modelled from the spec: the counter as the message of the keyed hash
    (section 4.1, "HMAC the counter"): eight bytes, most significant
    first, as the standard the spec cites prescribes. *)
Definition counter_bytes (counter : Z) : list Z :=
  (λ i, Z.shiftr counter (8 * i) mod 256) <$> [7; 6; 5; 4; 3; 2; 1; 0].

(** Modelled from the spec: the "dynamic truncation" step of section
    4.1, as the standard it cites defines it (the low four bits of the
    last digest byte select four bytes, read as a 31-bit number). *)
Definition truncate (digest : list Z) : Z :=
  let offset := Z.to_nat (Z.land (List.last digest 0) 15) in
  let byte (i : nat) := nth (offset + i) digest 0 in
  Z.lor (Z.shiftl (Z.land (byte 0%nat) 127) 24)
    (Z.lor (Z.shiftl (byte 1%nat) 16) (Z.lor (Z.shiftl (byte 2%nat) 8) (byte 3%nat))).

(** Modelled from the spec: a code of [digits] decimal digits (section
    3): the [n] low decimal digits of [v], most significant first. *)
Fixpoint decimal (n : nat) (v : Z) (acc : string) : string :=
  match n with
  | O => acc
  | S n' =>
      decimal n' (v / 10)
        (String (Ascii.ascii_of_N (Z.to_N (48 + v mod 10))) acc)
  end.

(** Modelled from the spec: the code of a counter (section 4.1): "HMAC
    the counter with the secret, apply dynamic truncation, reduce
    modulo 10^digits". The generator lives in a library that is not
    among the sources. *)
Definition hotp (algorithm secret : string) (digits counter : Z) : string :=
  let digest := hmac algorithm (bytes_of_string secret) (counter_bytes counter) in
  decimal (Z.to_nat digits) (truncate digest mod 10 ^ digits) "".

(** Modelled from the spec: the time window of an instant (section
    4.1): "divide Unix time by period to get a counter"; instants are
    milliseconds since the epoch as in JavaScript, periods are seconds. *)
Definition window (period now : Z) : Z := now / 1000 / period.

(** Modelled from the spec: the algorithm tag of simple random codes
    (section 3, "simple-random vs time-based-one-time-password"), which
    are compared with the stored value instead of being derived from the
    time. *)
Definition simple_random : string := "simple-random".

(** Modelled from the spec: [generate(kind, options)] of section 4.1,
    [generateTOTP] in the sources' words; [random] is the draw from the
    random source. A simple code is the draw itself and is stored as
    the secret; a time-based code is derived from the drawn secret and
    the current window. *)
Definition generate (algorithm : string) (period digits : Z) (charSet : string)
    (random : string) (now : Z) : generated :=
  let otp :=
    if decide (algorithm = simple_random) then random
    else hotp algorithm random digits (window period now) in
  mkGenerated random algorithm period digits charSet otp.

(** Modelled from the spec: the fixed clock-skew tolerance, in windows
    on either side of the current one (section 9 recommends one). *)
Definition window_tolerance : Z := 1.

(** Modelled from the spec: the tolerance set of section 4.3, the
    current window with the preceding and the following one. *)
Definition tolerated (period now : Z) : list Z :=
  seqZ (window period now - window_tolerance) (2 * window_tolerance + 1).

(** Modelled from the spec: "respect expiresAt if present" (section
    4.3); a null [expiresAt] is no cutoff, and a record is valid only
    before its expiry instant. *)
Definition expired (record : object) (now : Z) : bool :=
  match record !! "expiresAt" with
  | Some (VDate expiresAt) => bool_decide (expiresAt ≤ now)
  | _ => false
  end.

(** Modelled from the spec: the comparison of section 4.3: a simple code
    against the stored one, a time-based code against the code of every
    window of the tolerance set. *)
Definition code_matches (submittedCode : string) (record : object) (now : Z) : bool :=
  match record !! "algorithm", record !! "secret",
        record !! "period", record !! "digits" with
  | Some (VStr algorithm), Some (VStr secret), Some (VNum period), Some (VNum digits) =>
      if decide (algorithm = simple_random)
      then bool_decide (submittedCode = secret)
      else bool_decide
             (Exists (λ w, submittedCode = hotp algorithm secret digits w)
                     (tolerated period now))
  | _, _, _, _ => false
  end.

(** Modelled from the spec: [isValid(submittedCode, record, now)] of
    section 4.3: an absent record is invalid, an expired record is
    invalid whatever the code, a time-based code must be the code of a
    tolerated window, a simple code must equal the stored one. *)
Definition isValid (submittedCode : string) (record : option object) (now : Z) : bool :=
  match record with
  | None => false
  | Some record => negb (expired record now) && code_matches submittedCode record now
  end.

(** Modelled from the spec: [isCodeValid({ code, type, target })] of
    [verify.server.ts], which is not among the sources: the record
    lookup of section 4.4 ([submit]) followed by the validator. *)
Definition isCodeValid (code ty tg : string) (now : Z) (rows : list object) : bool :=
  isValid code (snd <$> list_find (target_type ty tg) rows) now.

(** Modelled from the spec: [request(type, target, ...)] of section
    4.4, [prepareVerification] of [verify.server.ts] in the sources'
    words: generate, then upsert the record for (type, target) with an
    expiry one [period] after the request; the code goes back to the
    caller for delivery. *)
Definition prepareVerification (algorithm : string) (digits : Z) (charSet : string)
    (period : Z) (ty tg : string) (random newId : string) (now : Z)
    : prisma string :=
  let g := generate algorithm period digits charSet random now in
  let data : object :=
    <["expiresAt" := VDate (now + period * 1000)]>
      (<["target" := VStr tg]>
         (<["type" := VStr ty]> (delete "otp" (generated_object g)))) in
  _ ← verification_.upsert ty tg data data newId now;
  mret (otp g).

End codes.

End Code.

(** ** settings/profile/change-email *)

Module ChangeEmail.

Definition newEmailAddressSessionKey : string := "new-email-address".

Section route.

Variable hmac : string → list Z → list Z → list Z.
(** The options [prepareVerification] passes to the generator. *)
Variables (algorithm : string) (digits : Z) (charSet : string).
(** [EmailSchema] of [user-validation.ts]. *)
Variable EmailSchema : string → zod_parsed string.
(** [sendEmail]: [None] on success, the error message otherwise. *)
Variable sendEmail : string → string → option string.
(** The page [prepareVerification] tells the handler to redirect to. *)
Variable redirectTo : string.

Definition ChangeEmailSchema (formData : gmap string string) : zod_parsed string :=
  match formData !! "email" with
  | None => Aborted [ZodIssue "email"]
  | Some email => EmailSchema email
  end.

Definition refinement (email : string) : prisma (list issue) := λ d,
  let existingUser := list_find (λ u, user_email u = email) (user d) in
  (Ok (match existingUser with
       | Some _ => [CustomIssue "email" "This email is already in use."]
       | None => []
       end), d).

Definition action (userId : string) (random newId : string) (now : Z)
    (formData : gmap string string) : prisma response :=
  submission ← with_refinement refinement (ChangeEmailSchema formData);
  match submission with
  | error issues => mret (json (Reply issues) 400)
  | success email =>
      otp ← Code.prepareVerification hmac algorithm digits charSet
              (10 * 60) "change-email" userId random newId now;
      match sendEmail email otp with
      | None => mret (redirectWithSession redirectTo newEmailAddressSessionKey email)
      | Some message => mret (json (Reply [FormError message]) 500)
      end
  end.

End route.

End ChangeEmail.

(** ** HMAC-SHA-1 on byte lists

    The keyed hash of section 4.1 of the specification ("HMAC the counter
    with the secret", algorithm "e.g. SHA-1"), which the sources take from
    a library; written after FIPS 180-4 and RFC 2104. Words are integers
    below 2^32, bytes integers below 256. *)

Module Sha1.

Definition w32 (x : Z) : Z := x mod 2 ^ 32.

Definition rotl (n x : Z) : Z :=
  w32 (Z.lor (Z.shiftl x n) (Z.shiftr x (32 - n))).

Definition be32 (b0 b1 b2 b3 : Z) : Z :=
  Z.lor (Z.shiftl b0 24) (Z.lor (Z.shiftl b1 16) (Z.lor (Z.shiftl b2 8) b3)).

Fixpoint words (bytes : list Z) : list Z :=
  match bytes with
  | b0 :: b1 :: b2 :: b3 :: rest => be32 b0 b1 b2 b3 :: words rest
  | _ => []
  end.

Definition word_bytes (w : Z) : list Z :=
  [Z.shiftr w 24 mod 256; Z.shiftr w 16 mod 256; Z.shiftr w 8 mod 256; w mod 256].

(** The message followed by 0x80, zeros up to 56 mod 64, and the bit
    length as a 64-bit big-endian number. *)
Definition pad (message : list Z) : list Z :=
  let len := Z.of_nat (length message) in
  let zeros := Z.to_nat ((55 - len) mod 64) in
  message ++ [128] ++ replicate zeros 0
    ++ word_bytes (Z.shiftr (8 * len) 32) ++ word_bytes (w32 (8 * len)).

(** The message schedule, most recent word first. *)
Fixpoint schedule (n : nat) (ws : list Z) : list Z :=
  match n with
  | O => ws
  | S n' =>
      let w := rotl 1 (Z.lxor (Z.lxor (nth 2 ws 0) (nth 7 ws 0))
                              (Z.lxor (nth 13 ws 0) (nth 15 ws 0))) in
      schedule n' (w :: ws)
  end.

Definition f (t : nat) (b c d : Z) : Z :=
  if decide (t < 20)%nat then Z.lor (Z.land b c) (Z.land (Z.lxor b 0xFFFFFFFF) d)
  else if decide (t < 40)%nat then Z.lxor (Z.lxor b c) d
  else if decide (t < 60)%nat then Z.lor (Z.lor (Z.land b c) (Z.land b d)) (Z.land c d)
  else Z.lxor (Z.lxor b c) d.

Definition k (t : nat) : Z :=
  if decide (t < 20)%nat then 0x5A827999
  else if decide (t < 40)%nat then 0x6ED9EBA1
  else if decide (t < 60)%nat then 0x8F1BBCDC
  else 0xCA62C1D6.

Definition state : Type := Z * Z * Z * Z * Z.

Fixpoint rounds (t : nat) (ws : list Z) (s : state) : state :=
  match ws with
  | [] => s
  | w :: ws' =>
      let '(a, b, c, d, e) := s in
      let temp := w32 (rotl 5 a + f t b c d + e + k t + w) in
      rounds (S t) ws' (temp, a, rotl 30 b, c, d)
  end.

Definition compress (s : state) (block : list Z) : state :=
  let '(h0, h1, h2, h3, h4) := s in
  let ws := rev (schedule 64 (rev (words block))) in
  let '(a, b, c, d, e) := rounds 0 ws s in
  (w32 (h0 + a), w32 (h1 + b), w32 (h2 + c), w32 (h3 + d), w32 (h4 + e)).

Fixpoint blocks (n : nat) (bytes : list Z) (s : state) : state :=
  match n with
  | O => s
  | S n' => blocks n' (drop 64 bytes) (compress s (take 64 bytes))
  end.

Definition initial : state :=
  (0x67452301, 0xEFCDAB89, 0x98BADCFE, 0x10325476, 0xC3D2E1F0).

(** Modelled from the spec: SHA-1, the hash the keyed hash of section 4.1
    is built on; it is library code, absent from the sources. *)
Definition digest (message : list Z) : list Z :=
  let padded := pad message in
  let '(h0, h1, h2, h3, h4) := blocks (length padded / 64)%nat padded initial in
  word_bytes h0 ++ word_bytes h1 ++ word_bytes h2 ++ word_bytes h3 ++ word_bytes h4.

(** Modelled from the spec: "HMAC the counter with the secret" (section
    4.1), with SHA-1 and its 64-byte block. *)
Definition hmac (key message : list Z) : list Z :=
  let key := if decide (64 < length key)%nat then digest key else key in
  let key := key ++ replicate (64 - length key) 0 in
  digest (map (Z.lxor 0x5C) key ++ digest (map (Z.lxor 0x36) key ++ message)).

End Sha1.

(** Modelled from the spec: the keyed hash the codes of the worked
    scenario are computed with, HMAC-SHA-1 whatever the algorithm tag. *)
Definition hmac_sha1 (algorithm : string) (key message : list Z) : list Z :=
  Sha1.hmac key message.

(** ** Loaders: pages that answer with data or with another response *)

Inductive loaded (A : Type) :=
| payload (a : A)          (* json(a) *)
| answered (r : response).
Arguments payload {A} a.
Arguments answered {A} r.

(** [prisma.user.findUniqueOrThrow({ where: { id } })]. *)
Definition user_findUniqueOrThrow (id : string) : prisma User := λ d,
  match list_find (λ u, user_id u = id) (user d) with
  | Some (_, u) => (Ok u, d)
  | None => (Throw P2025, d)
  end.

(** [prisma.password.findUnique({ where: { userId } })]. *)
Definition password_findUnique (userId : string) : prisma (option Password) := λ d,
  (Ok (snd <$> list_find (λ p, password_userId p = userId) (password d)), d).

(** [select]: the columns of a row that a query asks for. *)
Definition select (columns : list string) (row : object) : object :=
  filter (λ kv : string * value, kv.1 ∈ columns) row.

(** *** settings/profile/two-factor/verify: the page *)

Module VerifyPage.

Record qr := mkQr {
  otpUri : string;
  qrCode : string
}.

Section page.

(** [getTOTPAuthUri] of the TOTP library and [QRCode.toDataURL]. *)
Variable getTOTPAuthUri : object → string.
Variable toDataURL : string → string.

(** [loader]: [host] is [new URL(getDomainUrl(request)).host]. *)
Definition loader (host : string) (userId : string) : prisma (loaded qr) :=
  verification ←
    (found ← verification_.findUnique twoFAVerifyVerificationType userId;
     mret (select ["id"; "algorithm"; "secret"; "period"; "digits"] <$> found));
  match verification with
  | None => mret (answered (redirect "/settings/profile/two-factor"))
  | Some verification =>
      user ← user_findUniqueOrThrow userId;
      let issuer := host in
      let otpUri :=
        getTOTPAuthUri
          (<["issuer" := VStr issuer]>
             (<["accountName" := VStr (user_email user)]> verification)) in
      let qrCode := toDataURL otpUri in
      mret (payload (mkQr otpUri qrCode))
  end.

End page.

End VerifyPage.

(** *** settings/profile: the page *)

Module ProfilePage.

Record data := mkData {
  data_id : string;
  data_name : option string;
  data_username : string;
  data_email : string;
  data_image : option string;
  data_count_sessions : nat;
  hasPassword : bool;
  isTwoFactorEnabled : bool
}.

Section page.

(** The [name] column and the id of the [image] relation of a user row,
    which the [User] record does not carry. *)
Variable user_name : User → option string.
Variable user_image : User → option string.

(** [loader]: [now] is [new Date()]; only unexpired sessions are counted.
    The payload is flattened: the fields of [user], its [_count.sessions],
    then [hasPassword] and [isTwoFactorEnabled]. *)
Definition loader (now : Z) (userId : string) : prisma data :=
  user ← user_findUniqueOrThrow userId;
  sessions ← (λ d,
    (Ok (length (filter (λ s, session_userId s = userId ∧ now < session_expirationDate s)
                        (session d))), d));
  twoFactorVerification ← verification_.findUnique twoFAVerificationType userId;
  password ← password_findUnique userId;
  mret (mkData (user_id user) (user_name user) (user_username user) (user_email user)
          (user_image user) sessions (Boolean password) (Boolean twoFactorVerification)).

End page.

(** [otherSessionsCount] of the [SignOutOfSessions] component, as an
    integer: the count minus one. *)
Definition otherSessionsCount (d : data) : Z :=
  Z.of_nat (data_count_sessions d) - 1.

End ProfilePage.

(** *** settings/profile/connections: the page *)

Module ConnectionsPage.

Record listed := mkListed {
  listed_providerName : string;
  listed_id : string;
  listed_displayName : string;
  listed_link : option string;
  listed_createdAtFormatted : string
}.

Section page.

(** [providerNames], behind [ProviderNameSchema]; [resolveConnectionData],
    which answers with a display name and an optional link; and
    [Date.prototype.toLocaleString]. *)
Variable providerNames : list string.
Variable resolveConnectionData : string → string → string * option string.
Variable toLocaleString : Z → string.

(** The [for] loop of the loader: rows with an unknown provider are
    skipped, the others are pushed in order; the fields written after the
    spread of the resolved data are the row's own. *)
Fixpoint collect (rawConnections : list Connection) : list listed :=
  match rawConnections with
  | [] => []
  | connection :: rest =>
      if decide (connection_providerName connection ∈ providerNames)
      then
        let providerName := connection_providerName connection in
        let connectionData :=
          resolveConnectionData providerName (connection_providerId connection) in
        mkListed providerName (connection_id connection)
          (fst connectionData) (snd connectionData)
          (toLocaleString (connection_createdAt connection))
        :: collect rest
      else collect rest
  end.

(** [loader]: the listing and [canDeleteConnections]; the Server-Timing
    header of the response is not part of the payload. *)
Definition loader (userId : string) : prisma (list listed * bool) :=
  rawConnections ← (λ d,
    (Ok (filter (λ c, connection_userId c = userId) (connection d)), d));
  let connections := collect rawConnections in
  canDeleteConnections ← Connections.userCanDeleteConnections userId;
  mret (connections, canDeleteConnections).

End page.

End ConnectionsPage.

(** *** users/$username/notes/$noteId: the page metadata *)

Module NotePage.

(** JavaScript strings as sequences of UTF-16 code units; [units] reads
    an ASCII literal. *)
Definition units (s : string) : list N :=
  Ascii.N_of_ascii <$> String.list_ascii_of_string s.

Record note := mkNote {
  note_title : list N;
  note_content : list N
}.

(** A route match: its id and, when its loader data is there, the
    owner's nullable [name]. *)
Record route_match := mkMatch {
  match_id : string;
  match_owner_name : option (option (list N))
}.

(** A template placeholder: [undefined] prints as "undefined". *)
Definition template (s : option (list N)) : list N :=
  match s with
  | Some s => s
  | None => units "undefined"
  end.

(** [meta]: the page title and the content of the description tag. *)
Definition meta (data : option note) (username : option (list N))
    (matches : list route_match) : list N * list N :=
  let notesMatch :=
    snd <$> list_find (λ m, match_id m = "routes/users+/$username_+/notes") matches in
  let displayName :=
    match notesMatch with
    | Some (mkMatch _ (Some (Some name))) => Some name
    | _ => username
    end in
  let noteTitle :=
    match data with
    | Some n => note_title n
    | None => units "Note"
    end in
  let noteContentsSummary :=
    match data with
    | Some n =>
        if decide (100 < length (note_content n))%nat
        then take 97 (note_content n) ++ units "..."
        else units "No content"
    | None => units "No content"
    end in
  (noteTitle ++ units " | " ++ template displayName ++ units "'s Notes | Epic Notes",
   noteContentsSummary).

End NotePage.

(** ** Reading a handler's answer in the specification's error taxonomy *)

(** The failures of [submit] (section 7 of the specification): the store
    reporting that the record is missing, and a reply that carries the
    handler's "Invalid code" issue. *)
Inductive failure :=
| NotFound
| InvalidCode.

Definition invalidCodeIssue : issue := CustomIssue "code" "Invalid code".

Definition failure_of (answer : result response) : option failure :=
  match answer with
  | Throw P2025 => Some NotFound
  | Ok (json (Reply issues) _) =>
      if decide (invalidCodeIssue ∈ issues) then Some InvalidCode else None
  | _ => None
  end.

(** The record stored for (type, target), if any. *)
Definition lookup_verification (ty tg : string) (d : db) : option object :=
  snd <$> list_find (target_type ty tg) (verification d).

(** The database after the pending enrolment of a user is removed, and
    after the pending row at index [i] is turned into the "2fa" marker. *)
Definition without_pending (userId : string) (d : db) : db :=
  set_verification
    (filter (λ row, ¬ target_type twoFAVerifyVerificationType userId row)
            (verification d)) d.

Definition marked_enabled (i : nat) (row : object) (d : db) : db :=
  set_verification
    (<[i := <["type" := VStr twoFAVerificationType]> row]> (verification d)) d.

(** What one run of the enable action draws from its environment: the
    generator's answer, and the id and clock reading for a new row. *)
Record draw := mkDraw {
  draw_generated : object;
  draw_newId : string;
  draw_now : Z
}.

(** The enable action requested once per draw, in succession: the answers
    in order and the final database. *)
Fixpoint enable_repeatedly (draws : list draw) (userId : string) (d : db)
    : list (result response) * db :=
  match draws with
  | [] => ([], d)
  | x :: rest =>
      let '(answer, d1) :=
        TwoFactorIndex.action (draw_generated x) (draw_newId x) (draw_now x) userId d in
      let '(answers, d2) := enable_repeatedly rest userId d1 in
      (answer :: answers, d2)
  end.

(** Whether a user has a password row, and how many connections they own. *)
Definition has_password (userId : string) (d : db) : Prop :=
  Exists (λ p, password_userId p = userId) (password d).

Definition connection_count (userId : string) (d : db) : nat :=
  length (filter (λ c, connection_userId c = userId) (connection d)).

(** The issues [VerifySchema] itself raises for a non-empty code. *)
Definition length_issues (code : string) : list issue :=
  if decide (String.length code = 6%nat) then [] else [ZodIssue "code"].

(** A record that carries a time-based configuration. *)
Definition time_based (record : object) (algorithm secret : string)
    (period digits : Z) : Prop :=
  record !! "algorithm" = Some (VStr algorithm)
  ∧ record !! "secret" = Some (VStr secret)
  ∧ record !! "period" = Some (VNum period)
  ∧ record !! "digits" = Some (VNum digits)
  ∧ algorithm ≠ Code.simple_random.

(** ** A worked scenario

    The user "user-42" enables two-factor authentication on an empty
    database at time 0; the generator draws the secret
    "12345678901234567890" with SHA-1, a 30 second period and six digits. *)

Module Scenario.

Definition empty : db := mkDb [] [] [] [] [].

Definition userId : string := "user-42".

Definition isCodeValid : string → string → string → Z → list object → bool :=
  Code.isCodeValid hmac_sha1.

Definition drawn : generated :=
  Code.generate hmac_sha1 "SHA-1" 30 6 "0123456789" "12345678901234567890" 0.

Definition pending_row : object :=
  {[ "secret" := VStr "12345678901234567890"; "algorithm" := VStr "SHA-1";
     "period" := VNum 30; "digits" := VNum 6; "charSet" := VStr "0123456789";
     "type" := VStr "2fa-verify"; "target" := VStr "user-42";
     "id" := VStr "verification-1"; "createdAt" := VDate 0; "expiresAt" := VNull ]}.

(** The database once the enable action has run. *)
Definition pending : db :=
  snd (TwoFactorIndex.action (generated_object drawn) "verification-1" 0 userId empty).

(** A second user with two sessions, and "user-42" with three. *)
Definition sessions : db :=
  mkDb []
    [ mkSession "s1" "user-42" 100; mkSession "s2" "user-42" 100;
      mkSession "s3" "user-7" 100; mkSession "s4" "user-42" 100;
      mkSession "s5" "user-7" 100 ]
    [] [] [].

(** "user-42" has no password and a single provider connection;
    "user-7" has a password and one connection. *)
Definition connections : db :=
  mkDb [] []
    [ mkConnection "c1" "user-42" "github" "gh-42" 0;
      mkConnection "c2" "user-7" "github" "gh-7" 0 ]
    [ mkUser "user-42" "kody@example.com" "kody";
      mkUser "user-7" "hannah@example.com" "hannah" ]
    [ mkPassword "user-7" "hash" ].

Definition deleteForm (connectionId : string) : gmap string string :=
  {[ "intent" := "delete-connection"; "connectionId" := connectionId ]}.

(** Three enable requests in a row, each with its own secret. *)
Definition first_draw : draw :=
  mkDraw (generated_object drawn) "verification-1" 0.
Definition second_draw : draw :=
  mkDraw (generated_object
            (Code.generate hmac_sha1 "SHA-1" 30 6 "0123456789" "second-secret" 60000))
         "verification-2" 60000.
Definition third_draw : draw :=
  mkDraw (generated_object
            (Code.generate hmac_sha1 "SHA-1" 30 6 "0123456789" "third-secret" 120000))
         "verification-3" 120000.

(** The change-email page: every address passes the schema and the
    mailer accepts every message. *)
Definition EmailSchema (email : string) : zod_parsed string := Valid email.
Definition sendEmail (to otp : string) : option string := None.
Definition emailForm : gmap string string := {[ "email" := "new@example.com" ]}.

End Scenario.

(** ** Views used to state the properties of the pages *)

(** The verification rows of everyone but [userId], in table order. *)
Definition rows_of_others (userId : string) (d : db) : list object :=
  filter (λ row : object, row !! "target" ≠ Some (VStr userId)) (verification d).

(** The connections of everyone but [userId], in table order. *)
Definition connections_of_others (userId : string) (d : db) : list Connection :=
  filter (λ c, connection_userId c ≠ userId) (connection d).

(** What the verify page hands to [getTOTPAuthUri] for a stored row. *)
Definition uri_arguments (host : string) (account : User) (row : object) : object :=
  <["issuer" := VStr host]>
    (<["accountName" := VStr (user_email account)]>
       (select ["id"; "algorithm"; "secret"; "period"; "digits"] row)).

(** ** A second worked scenario: the pages *)

Module Walkthrough.

(** Stand-ins for the library functions the pages call. *)
Definition getTOTPAuthUri (args : object) : string :=
  match args !! "issuer", args !! "secret" with
  | Some (VStr issuer), Some (VStr secret) =>
      "otpauth://totp/" +:+ issuer +:+ "?secret=" +:+ secret
  | _, _ => ""
  end.
Definition toDataURL (uri : string) : string := "data:" +:+ uri.
Definition user_name (u : User) : option string := None.
Definition user_image (u : User) : option string := None.
Definition providerNames : list string := ["github"].
Definition resolveConnectionData (providerName providerId : string)
    : string * option string :=
  (providerId, None).
Definition toLocaleString (t : Z) : string := "1/1/1970, 12:00:00 AM".

(** "user-42" has completed an enrolment and requested another one. *)
Definition enabled_and_pending : db :=
  snd (TwoFactorIndex.action (generated_object Scenario.drawn) "verification-2" 50000
         "user-42" (marked_enabled 0 Scenario.pending_row Scenario.pending)).

Definition second_pending_row : object :=
  <["id" := VStr "verification-2"]>
    (<["createdAt" := VDate 50000]> Scenario.pending_row).

(** The users and connections of the first scenario with its sessions. *)
Definition signed_in : db :=
  mkDb [] (session Scenario.sessions) (connection Scenario.connections)
    (user Scenario.connections) (password Scenario.connections).

(** "user-9" has no password and two connections, one of them with a
    provider the application does not know. *)
Definition two_connections : db :=
  mkDb [] []
    [ mkConnection "c3" "user-9" "github" "gh-9" 0;
      mkConnection "c2" "user-7" "github" "gh-7" 0;
      mkConnection "c4" "user-9" "gitlab" "gl-9" 0 ]
    [ mkUser "user-9" "nine@example.com" "nine";
      mkUser "user-7" "hannah@example.com" "hannah" ]
    [ mkPassword "user-7" "hash" ].

Definition takenForm : gmap string string := {[ "email" := "hannah@example.com" ]}.

(** A note whose content has 150 code units. *)
Definition long_note : NotePage.note :=
  NotePage.mkNote (NotePage.units "Groceries") (replicate 150 97%N).

End Walkthrough.

(** * Properties *)

(** ** The hash and the code derivation on published test vectors *)

Example sha1_abc :
  Sha1.digest (bytes_of_string "abc")
  = [0xa9; 0x99; 0x3e; 0x36; 0x47; 0x06; 0x81; 0x6a; 0xba; 0x3e;
     0x25; 0x71; 0x78; 0x50; 0xc2; 0x6c; 0x9c; 0xd0; 0xd8; 0x9d].
Proof. vm_compute. reflexivity. Qed.

Example hotp_rfc4226 :
  Code.hotp hmac_sha1 "SHA-1" "12345678901234567890" 6 <$> [0; 1; 2; 3; 9]
  = ["755224"; "287082"; "359152"; "969429"; "520489"].
Proof. vm_compute. reflexivity. Qed.

Example totp_rfc6238 :
  Code.hotp hmac_sha1 "SHA-1" "12345678901234567890" 8 (Code.window 30 59000)
  = "94287082".
Proof. vm_compute. reflexivity. Qed.


(** ** Facts about the verification table *)

Lemma db_eta d :
  mkDb (verification d) (session d) (connection d) (user d) (password d) = d.
Proof. by destruct d. Qed.

Lemma set_verification_same d : set_verification (verification d) d = d.
Proof. apply db_eta. Qed.

Lemma key_of_target_type ty tg row :
  key_of row = (Some (VStr tg), Some (VStr ty)) ↔ target_type ty tg row.
Proof.
  unfold key_of, target_type. split.
  - intros [= -> ->]. done.
  - intros [-> ->]. done.
Qed.

Lemma filter_all {A} (P : A → Prop) `{!∀ x, Decision (P x)} (l : list A) :
  Forall P l → filter P l = l.
Proof.
  induction 1 as [|x l Hx _ IH]; [done|].
  rewrite filter_cons_True by done. by rewrite IH.
Qed.

Lemma filter_twice {A} (P : A → Prop) `{!∀ x, Decision (P x)} (l : list A) :
  filter P (filter P l) = filter P l.
Proof.
  apply filter_all, Forall_forall. intros x Hx.
  by apply list_elem_of_filter in Hx as [? _].
Qed.

Lemma list_find_None_filter ty tg (rows : list object) :
  list_find (target_type ty tg) rows = None →
  filter (λ row, ¬ target_type ty tg row) rows = rows.
Proof.
  intros Hnone. apply filter_all.
  by apply list_find_None in Hnone.
Qed.

Lemma list_find_filter_out ty tg (rows : list object) :
  list_find (target_type ty tg) (filter (λ row, ¬ target_type ty tg row) rows) = None.
Proof.
  apply list_find_None, Forall_forall. intros row Hrow.
  by apply list_elem_of_filter in Hrow as [? _].
Qed.

(** ** Cancelling an enrolment *)

Section cancel.
Import TwoFactorVerify.
Variable isCodeValid : string → string → string → Z → list object → bool.

Lemma action_cancel userId now d :
  action isCodeValid userId now cancelForm d
  = (Ok (redirect "/settings/profile/two-factor"), without_pending userId d).
Proof. reflexivity. Qed.

Lemma without_pending_idemp userId d :
  without_pending userId (without_pending userId d) = without_pending userId d.
Proof.
  unfold without_pending, set_verification; simpl. by rewrite filter_twice.
Qed.

Lemma without_pending_absent userId d :
  lookup_verification twoFAVerifyVerificationType userId d = None →
  without_pending userId d = d.
Proof.
  unfold lookup_verification, without_pending. intros Hnone.
  apply fmap_None in Hnone.
  rewrite (list_find_None_filter _ _ _ Hnone). apply set_verification_same.
Qed.

(** C5. The cancel intent deletes the pending "2fa-verify" record of the
    user without consulting the code validator, always answers with the
    redirect, leaves every other row in place, is a no-op success when
    no such record exists, and cancelling twice leaves the same database
    as cancelling once. *)
Theorem cancel_deletes_and_is_idempotent userId now now' d :
  let after := action isCodeValid userId now cancelForm d in
  after = (Ok (redirect "/settings/profile/two-factor"), without_pending userId d)
  ∧ lookup_verification twoFAVerifyVerificationType userId (snd after) = None
  ∧ (∀ row, row ∈ verification (snd after) ↔
       row ∈ verification d ∧ ¬ target_type twoFAVerifyVerificationType userId row)
  ∧ (lookup_verification twoFAVerifyVerificationType userId d = None →
       after = (Ok (redirect "/settings/profile/two-factor"), d))
  ∧ action isCodeValid userId now' cancelForm (snd after) = after.
Proof.
  intros after. subst after. rewrite action_cancel. simpl.
  split_and!.
  - done.
  - unfold lookup_verification, without_pending; simpl.
    by rewrite list_find_filter_out.
  - intros row. unfold without_pending; simpl.
    rewrite list_elem_of_filter. tauto.
  - intros Hnone. by rewrite without_pending_absent.
  - by rewrite action_cancel, without_pending_idemp.
Qed.

End cancel.

(** ** Completing an enrolment *)

Lemma target_type_insert_type ty ty' tg (row : object) :
  target_type ty tg row → target_type ty' tg (<["type" := VStr ty']> row).
Proof.
  intros [_ Htg]. split; [by rewrite lookup_insert_eq|].
  by rewrite lookup_insert_ne.
Qed.

Lemma key_not_in_when_absent ty tg (rows : list object) (row : object) :
  list_find (target_type ty tg) rows = None →
  target_type ty tg row →
  key_of row ∉ key_of <$> rows.
Proof.
  intros Hnone Hrow Hin.
  apply list_elem_of_fmap in Hin as (other & Hkey & Hother).
  apply list_find_None in Hnone.
  rewrite Forall_forall in Hnone. apply (Hnone other Hother).
  apply key_of_target_type. rewrite <- Hkey. by apply key_of_target_type.
Qed.

Lemma list_find_is_Some_elem {A} (P : A → Prop) `{!∀ x, Decision (P x)} (l : list A) x :
  x ∈ l → P x → is_Some (list_find P l).
Proof.
  intros Hin HP. destruct (list_find P l) eqn:E; [done|].
  apply list_find_None in E. rewrite Forall_forall in E. by destruct (E x Hin).
Qed.

Section verify.
Import TwoFactorVerify.
Variable isCodeValid : string → string → string → Z → list object → bool.

Lemma action_verify_valid userId now code d :
  String.length code = 6%nat →
  isCodeValid code twoFAVerifyVerificationType userId now (verification d) = true →
  action isCodeValid userId now (verifyForm code) d
  = (_ ← verification_.update twoFAVerifyVerificationType userId
           {[ "type" := VStr twoFAVerificationType ]};
     mret (redirectWithToast "/settings/profile/two-factor" enabledToast)) d.
Proof.
  intros Hlen Hvalid.
  unfold action, parseWithZod, with_refinement, ActionSchema, VerifySchema, verifyForm.
  rewrite lookup_insert_eq. simpl.
  rewrite lookup_insert_ne by done. rewrite lookup_singleton_eq.
  destruct (decide (code = "")) as [->|_]; [done|].
  rewrite decide_True by done.
  unfold mbind, prisma_bind, refinement; simpl. by rewrite Hvalid.
Qed.

Lemma update_type_result userId i row d :
  list_find (target_type twoFAVerifyVerificationType userId) (verification d) = Some (i, row) →
  verification_.update twoFAVerifyVerificationType userId
      {[ "type" := VStr twoFAVerificationType ]} d
  = (Ok (<["type" := VStr twoFAVerificationType]> row), marked_enabled i row d)
  ∨ verification_.update twoFAVerifyVerificationType userId
      {[ "type" := VStr twoFAVerificationType ]} d
  = (Throw P2002, d).
Proof.
  intros Hfind. unfold verification_.update, verification_.write_at.
  rewrite Hfind. rewrite <- insert_union_singleton_l.
  case_decide; [by right | by left].
Qed.

Lemma update_type_fresh userId i row d :
  list_find (target_type twoFAVerifyVerificationType userId) (verification d) = Some (i, row) →
  lookup_verification twoFAVerificationType userId d = None →
  verification_.update twoFAVerifyVerificationType userId
      {[ "type" := VStr twoFAVerificationType ]} d
  = (Ok (<["type" := VStr twoFAVerificationType]> row), marked_enabled i row d).
Proof.
  intros Hfind Hnone. unfold verification_.update, verification_.write_at.
  rewrite Hfind. rewrite <- insert_union_singleton_l.
  rewrite decide_False; [done|].
  intros Hin. apply list_elem_of_fmap in Hin as (other & Hkey & Hother).
  apply fmap_None, list_find_None in Hnone. rewrite Forall_forall in Hnone.
  apply list_find_Some in Hfind as (_ & Hrow & _).
  apply (Hnone other).
  - by eapply list_elem_of_delete_inv.
  - apply key_of_target_type. rewrite <- Hkey. apply key_of_target_type.
    by eapply target_type_insert_type.
Qed.

Lemma loader_after_mark userId i row d :
  list_find (target_type twoFAVerifyVerificationType userId) (verification d) = Some (i, row) →
  TwoFactorIndex.loader userId (marked_enabled i row d)
  = (Ok (json (Is2FAEnabled true) 200), marked_enabled i row d).
Proof.
  intros Hfind. apply list_find_Some in Hfind as (Hi & Hrow & _).
  unfold TwoFactorIndex.loader, verification_.findUnique.
  unfold mbind, prisma_bind, mret, prisma_ret.
  destruct (list_find_is_Some_elem (target_type twoFAVerificationType userId)
              (verification (marked_enabled i row d))
              (<["type" := VStr twoFAVerificationType]> row)) as [found ->].
  - unfold marked_enabled; simpl. apply list_elem_of_lookup. exists i.
    apply list_lookup_insert_eq. by eapply lookup_lt_Some.
  - by eapply target_type_insert_type.
  - done.
Qed.

(** C1. For a user whose pending "2fa-verify" record is [row], a verify
    submission with a valid six-character code that succeeds answers
    with the "Enabled" toast redirect and leaves the database with that
    same row, at the same position, changed only in its [type] field,
    which now reads "2fa"; no row is removed and no other row or table
    changes; such a submission does succeed when the user has no "2fa"
    record yet; and on the resulting database the two-factor loader
    reports [is2FAEnabled] true. *)
Theorem verify_success_marks_record_enabled userId now code d i row :
  list_find (target_type twoFAVerifyVerificationType userId) (verification d) = Some (i, row) →
  String.length code = 6%nat →
  isCodeValid code twoFAVerifyVerificationType userId now (verification d) = true →
  let row' := <["type" := VStr twoFAVerificationType]> row in
  let d' := marked_enabled i row d in
  let enabled := redirectWithToast "/settings/profile/two-factor" enabledToast in
  (∀ resp d'', action isCodeValid userId now (verifyForm code) d = (Ok resp, d'') →
      resp = enabled ∧ d'' = d')
  ∧ (lookup_verification twoFAVerificationType userId d = None →
      action isCodeValid userId now (verifyForm code) d = (Ok enabled, d'))
  ∧ length (verification d') = length (verification d)
  ∧ verification d' !! i = Some row'
  ∧ (∀ j, j ≠ i → verification d' !! j = verification d !! j)
  ∧ row' !! "type" = Some (VStr "2fa")
  ∧ (∀ field, field ≠ "type" → row' !! field = row !! field)
  ∧ (session d', connection d', user d', password d')
    = (session d, connection d, user d, password d)
  ∧ TwoFactorIndex.loader userId d' = (Ok (json (Is2FAEnabled true) 200), d').
Proof.
  intros Hfind Hlen Hvalid row' d' enabled.
  pose proof (action_verify_valid userId now code d Hlen Hvalid) as Hact.
  assert (i < length (verification d))%nat as Hi.
  { apply list_find_Some in Hfind as (Hi & _). by eapply lookup_lt_Some. }
  split_and!.
  - intros resp d'' Hrun. rewrite Hact in Hrun.
    unfold mbind, prisma_bind in Hrun.
    destruct (update_type_result userId i row d Hfind) as [Hok | Hthrow].
    + rewrite Hok in Hrun. by injection Hrun as <- <-.
    + by rewrite Hthrow in Hrun.
  - intros Hnone. rewrite Hact. unfold mbind, prisma_bind.
    by rewrite (update_type_fresh userId i row d Hfind Hnone).
  - subst d'. unfold marked_enabled; simpl. apply length_insert.
  - subst d'. unfold marked_enabled; simpl. by apply list_lookup_insert_eq.
  - intros j Hj. subst d'. unfold marked_enabled; simpl.
    by apply list_lookup_insert_ne.
  - subst row'. by rewrite lookup_insert_eq.
  - intros field Hfield. subst row'. by rewrite lookup_insert_ne.
  - done.
  - by apply loader_after_mark.
Qed.

End verify.

(** ** Submissions that fail *)

Lemma list_find_insert_unique ty tg (rows : list object) i row row' :
  unique_target_type rows →
  list_find (target_type ty tg) rows = Some (i, row) →
  ¬ target_type ty tg row' →
  list_find (target_type ty tg) (<[i := row']> rows) = None.
Proof.
  intros Hnodup Hfind Hrow'.
  apply list_find_Some in Hfind as (Hi & Hrow & _).
  apply list_find_None, Forall_forall. intros x Hx Hkey.
  apply list_elem_of_lookup in Hx as [j Hj].
  destruct (decide (j = i)) as [->|Hne].
  - rewrite list_lookup_insert_eq in Hj by (by eapply lookup_lt_Some).
    by injection Hj as <-.
  - rewrite list_lookup_insert_ne in Hj by done.
    apply Hne. eapply (NoDup_lookup _ j i (key_of x) Hnodup).
    + by rewrite list_lookup_fmap, Hj.
    + rewrite list_lookup_fmap, Hi. simpl. f_equal.
      apply key_of_target_type in Hkey, Hrow. congruence.
Qed.

Section rejected.
Import TwoFactorVerify.
Variable isCodeValid : string → string → string → Z → list object → bool.

Lemma action_verify_invalid userId now code d :
  code ≠ "" →
  isCodeValid code twoFAVerifyVerificationType userId now (verification d) = false →
  action isCodeValid userId now (verifyForm code) d
  = (Ok (json (Reply (length_issues code ++ [invalidCodeIssue])) 400), d).
Proof.
  intros Hcode Hinvalid.
  unfold action, parseWithZod, with_refinement, ActionSchema, VerifySchema, verifyForm.
  rewrite lookup_insert_eq. simpl.
  rewrite lookup_insert_ne by done. rewrite lookup_singleton_eq.
  rewrite decide_False by done. unfold length_issues.
  case_decide; unfold mbind, prisma_bind, refinement; simpl; by rewrite Hinvalid.
Qed.

Lemma action_verify_error userId now code d :
  isCodeValid code twoFAVerifyVerificationType userId now (verification d) = false →
  ∃ issues, issues ≠ [] ∧
    action isCodeValid userId now (verifyForm code) d = (Ok (json (Reply issues) 400), d).
Proof.
  intros Hinvalid. destruct (decide (code = "")) as [->|Hcode].
  - by exists [ZodIssue "code"].
  - exists (length_issues code ++ [invalidCodeIssue]). split.
    + by destruct (length_issues code).
    + by apply action_verify_invalid.
Qed.

Lemma failure_of_invalid issues status :
  failure_of (Ok (json (Reply (issues ++ [invalidCodeIssue])) status)) = Some InvalidCode.
Proof.
  simpl. rewrite decide_True; [done|]. apply elem_of_app. right. by apply list_elem_of_singleton.
Qed.

(** C4. A verify submission whose code the validator rejects is answered
    with a status 400 reply and changes nothing in the database: the
    pending record is still stored, unchanged in every field, and every
    code is judged afterwards exactly as before. When a code was typed
    the reply carries the "Invalid code" issue, and that issue alone when
    the code has six characters. *)
Theorem wrong_code_leaves_record_pending userId now code d row :
  lookup_verification twoFAVerifyVerificationType userId d = Some row →
  isCodeValid code twoFAVerifyVerificationType userId now (verification d) = false →
  let after := action isCodeValid userId now (verifyForm code) d in
  (∃ issues, issues ≠ [] ∧ fst after = Ok (json (Reply issues) 400))
  ∧ (code ≠ "" → failure_of (fst after) = Some InvalidCode)
  ∧ (String.length code = 6%nat →
       fst after = Ok (json (Reply [invalidCodeIssue]) 400))
  ∧ snd after = d
  ∧ lookup_verification twoFAVerifyVerificationType userId (snd after) = Some row
  ∧ (∀ code' now',
       isCodeValid code' twoFAVerifyVerificationType userId now' (verification (snd after))
       = isCodeValid code' twoFAVerifyVerificationType userId now' (verification d)).
Proof.
  intros Hrow Hinvalid after.
  destruct (action_verify_error userId now code d Hinvalid) as (issues & Hne & Hrun).
  assert (snd after = d) as Hsame by (subst after; by rewrite Hrun).
  split_and!.
  - exists issues. subst after. by rewrite Hrun.
  - intros Hcode. subst after.
    rewrite (action_verify_invalid userId now code d Hcode Hinvalid).
    apply failure_of_invalid.
  - intros Hlen. subst after.
    assert (code ≠ "") as Hcode by (by intros ->).
    rewrite (action_verify_invalid userId now code d Hcode Hinvalid).
    unfold length_issues. by rewrite decide_True.
  - done.
  - by rewrite Hsame.
  - intros. by rewrite Hsame.
Qed.

(** C3 (amended). Provided the validator rejects every code when no
    record is stored, a verify submission of any typed code for a user
    without a pending record fails with the same "Invalid code" reply
    (status 400) that a wrong code gets, not with a distinct not-found
    error, and leaves the database unchanged. In particular, after a
    first successful submission has turned the pending record into the
    "2fa" marker, no pending record is left and a second submission of
    the same code fails in that way. *)
Theorem submit_without_record_is_invalid_code userId now code :
  (∀ code' ty tg now' rows,
      list_find (target_type ty tg) rows = None →
      isCodeValid code' ty tg now' rows = false) →
  code ≠ "" →
  (∀ d,
      lookup_verification twoFAVerifyVerificationType userId d = None →
      let after := action isCodeValid userId now (verifyForm code) d in
      failure_of (fst after) = Some InvalidCode
      ∧ fst after = Ok (json (Reply (length_issues code ++ [invalidCodeIssue])) 400)
      ∧ snd after = d)
  ∧ (∀ d i row now0,
      unique_target_type (verification d) →
      list_find (target_type twoFAVerifyVerificationType userId) (verification d)
        = Some (i, row) →
      String.length code = 6%nat →
      isCodeValid code twoFAVerifyVerificationType userId now0 (verification d) = true →
      lookup_verification twoFAVerificationType userId d = None →
      let first := action isCodeValid userId now0 (verifyForm code) d in
      let second := action isCodeValid userId now (verifyForm code) (snd first) in
      first = (Ok (redirectWithToast "/settings/profile/two-factor" enabledToast),
               marked_enabled i row d)
      ∧ lookup_verification twoFAVerifyVerificationType userId (snd first) = None
      ∧ failure_of (fst second) = Some InvalidCode
      ∧ second = (Ok (json (Reply [invalidCodeIssue]) 400), snd first)).
Proof.
  intros Habsent Hcode.
  assert (∀ d, lookup_verification twoFAVerifyVerificationType userId d = None →
            action isCodeValid userId now (verifyForm code) d
            = (Ok (json (Reply (length_issues code ++ [invalidCodeIssue])) 400), d))
    as Hfail.
  { intros d Hnone. apply action_verify_invalid; [done|].
    apply Habsent. by apply fmap_None in Hnone. }
  split.
  - intros d Hnone after. subst after. rewrite (Hfail d Hnone). cbn [fst snd].
    split_and!; [|done..]. apply failure_of_invalid.
  - intros d i row now0 Hunique Hfind Hlen Hvalid Hfresh first second.
    assert (first = (Ok (redirectWithToast "/settings/profile/two-factor" enabledToast),
                     marked_enabled i row d)) as Hfirst.
    { subst first. rewrite (action_verify_valid _ _ _ _ _ Hlen Hvalid).
      unfold mbind, prisma_bind.
      by rewrite (update_type_fresh userId i row d Hfind Hfresh). }
    assert (lookup_verification twoFAVerifyVerificationType userId (snd first) = None)
      as Hgone.
    { rewrite Hfirst. unfold lookup_verification, marked_enabled; simpl.
      rewrite (list_find_insert_unique _ _ _ i row); [done..|].
      intros [Hty _]. by rewrite lookup_insert_eq in Hty. }
    subst second. rewrite (Hfail _ Hgone).
    unfold length_issues. rewrite decide_True by done. cbn [fst snd app].
    split_and!; [done..| |done].
    apply (failure_of_invalid []).
Qed.

End rejected.

(** ** Requesting an enrolment *)

Lemma target_type_union ty tg (data row : object) :
  target_type ty tg data → target_type ty tg (data ∪ row).
Proof. intros [Hty Htg]. split; by apply lookup_union_Some_l. Qed.

Lemma NoDup_not_in_delete {A} (l : list A) i x :
  NoDup l → l !! i = Some x → x ∉ delete i l.
Proof.
  intros Hnodup Hi Hin. apply list_elem_of_lookup in Hin as [j Hj].
  destruct (decide (j < i)%nat) as [Hlt|Hge].
  - rewrite list_lookup_delete_lt in Hj by done.
    pose proof (NoDup_lookup _ _ _ _ Hnodup Hi Hj). lia.
  - rewrite list_lookup_delete_ge in Hj by lia.
    pose proof (NoDup_lookup _ _ _ _ Hnodup Hi Hj). lia.
Qed.

Lemma filter_unique_key ty tg (rows : list object) i row :
  unique_target_type rows →
  rows !! i = Some row →
  target_type ty tg row →
  filter (target_type ty tg) rows = [row].
Proof.
  unfold unique_target_type. revert i.
  induction rows as [|a rows IH]; intros i Hnodup Hi Hrow; [done|].
  rewrite fmap_cons in Hnodup. apply NoDup_cons in Hnodup as [Ha Hnodup].
  destruct i as [|i]; simpl in Hi.
  - injection Hi as ->. rewrite filter_cons_True by done. f_equal.
    destruct (filter (target_type ty tg) rows) as [|x ?] eqn:E; [done|].
    assert (x ∈ filter (target_type ty tg) rows) as Hx by (rewrite E; left).
    apply list_elem_of_filter in Hx as [Hx Hin].
    destruct Ha. apply list_elem_of_fmap. exists x. split; [|done].
    apply key_of_target_type in Hx, Hrow. congruence.
  - rewrite filter_cons_False; [by eapply IH|].
    intros Hakey. destruct Ha. apply list_elem_of_fmap. exists row. split.
    + apply key_of_target_type in Hakey, Hrow. congruence.
    + apply list_elem_of_lookup. by exists i.
Qed.

Lemma upsert_keyed ty tg (data : object) newId now d :
  unique_target_type (verification d) →
  target_type ty tg data →
  ∃ row' rows',
    verification_.upsert ty tg data data newId now d = (Ok row', set_verification rows' d)
    ∧ unique_target_type rows'
    ∧ filter (target_type ty tg) rows' = [row']
    ∧ data ⊆ row'.
Proof.
  intros Hunique Hdata. unfold verification_.upsert.
  destruct (list_find (target_type ty tg) (verification d)) as [[i row]|] eqn:Hfind.
  - apply list_find_Some in Hfind as (Hi & Hrow & _).
    assert (key_of (data ∪ row) = key_of row) as Hkey.
    { pose proof (target_type_union ty tg data row Hdata) as Hnew.
      apply key_of_target_type in Hnew, Hrow. congruence. }
    assert (key_of <$> <[i := data ∪ row]> (verification d) = key_of <$> verification d)
      as Hkeys.
    { rewrite list_fmap_insert, Hkey. apply list_insert_id.
      by rewrite list_lookup_fmap, Hi. }
    exists (data ∪ row), (<[i := data ∪ row]> (verification d)).
    unfold verification_.write_at. rewrite decide_False.
    + split_and!; [done| | |apply map_union_subseteq_l].
      * unfold unique_target_type. by rewrite Hkeys.
      * apply (filter_unique_key ty tg _ i).
        -- unfold unique_target_type. by rewrite Hkeys.
        -- apply list_lookup_insert_eq. by eapply lookup_lt_Some.
        -- by apply target_type_union.
    + rewrite Hkey, list_fmap_delete. apply NoDup_not_in_delete; [done|].
      by rewrite list_lookup_fmap, Hi.
  - set (row := data ∪ verification_.defaults newId now).
    assert (target_type ty tg row) as Hrow by (by apply target_type_union).
    pose proof (key_not_in_when_absent ty tg _ row Hfind Hrow) as Hfresh.
    exists row, (verification d ++ [row]).
    unfold verification_.create. fold row. rewrite decide_False by done.
    assert (unique_target_type (verification d ++ [row])) as Hunique'.
    { unfold unique_target_type. rewrite fmap_app. apply NoDup_app.
      split_and!; [done| |apply NoDup_singleton].
      intros k Hk Hk'. apply list_elem_of_singleton in Hk'. by subst k. }
    split_and!; [done|done| |apply map_union_subseteq_l].
    apply (filter_unique_key ty tg _ (length (verification d))); [done| |done].
    by rewrite lookup_app_r, Nat.sub_diag.
Qed.

Lemma verificationData_keyed generated userId :
  target_type twoFAVerifyVerificationType userId
    (TwoFactorIndex.verificationData generated userId).
Proof.
  unfold TwoFactorIndex.verificationData. split.
  - rewrite lookup_insert_ne by done. by rewrite lookup_insert_eq.
  - by rewrite lookup_insert_eq.
Qed.

Lemma enable_once x userId d :
  unique_target_type (verification d) →
  ∃ row d',
    TwoFactorIndex.action (draw_generated x) (draw_newId x) (draw_now x) userId d
      = (Ok (redirect "/settings/profile/two-factor/verify"), d')
    ∧ unique_target_type (verification d')
    ∧ filter (target_type twoFAVerifyVerificationType userId) (verification d') = [row]
    ∧ TwoFactorIndex.verificationData (draw_generated x) userId ⊆ row.
Proof.
  intros Hunique.
  destruct (upsert_keyed twoFAVerifyVerificationType userId
              (TwoFactorIndex.verificationData (draw_generated x) userId)
              (draw_newId x) (draw_now x) d Hunique (verificationData_keyed _ _))
    as (row & rows' & Hrun & Hunique' & Hone & Hsub).
  exists row, (set_verification rows' d).
  unfold TwoFactorIndex.action, mbind, prisma_bind. by rewrite Hrun.
Qed.

Lemma enable_repeatedly_snoc draws last userId d :
  enable_repeatedly (draws ++ [last]) userId d
  = let '(answers, d1) := enable_repeatedly draws userId d in
    let '(answer, d2) :=
      TwoFactorIndex.action (draw_generated last) (draw_newId last) (draw_now last)
        userId d1 in
    (answers ++ [answer], d2).
Proof.
  revert d. induction draws as [|x draws IH]; intros d; simpl.
  - by destruct (TwoFactorIndex.action _ _ _ _ d).
  - destruct (TwoFactorIndex.action _ _ _ userId d) as [answer d1].
    rewrite IH. destruct (enable_repeatedly draws userId d1) as [answers d2].
    by destruct (TwoFactorIndex.action _ _ _ userId d2).
Qed.

Lemma enable_repeatedly_ok draws userId d :
  unique_target_type (verification d) →
  Forall (λ answer, answer = Ok (redirect "/settings/profile/two-factor/verify"))
         (fst (enable_repeatedly draws userId d))
  ∧ length (fst (enable_repeatedly draws userId d)) = length draws
  ∧ unique_target_type (verification (snd (enable_repeatedly draws userId d))).
Proof.
  revert d. induction draws as [|x draws IH]; intros d Hunique; simpl; [done|].
  destruct (enable_once x userId d Hunique) as (row & d1 & -> & Hunique1 & _).
  destruct (IH d1 Hunique1) as (Hall & Hlen & Hunique2).
  destruct (enable_repeatedly draws userId d1) as [answers d2]. simpl in *.
  split_and!; [by constructor|by f_equal|done].
Qed.

(** C2. Starting from a store that respects the (target, type) constraint,
    any number of enable requests in succession (at least one) all answer
    with the redirect to the verify page and leave exactly one record for
    ("2fa-verify", userId); the constraint still holds, and that record
    carries the data of the last request, so the secret and configuration
    of every earlier request are replaced. *)
Theorem repeated_enable_leaves_one_pending userId draws last d :
  unique_target_type (verification d) →
  let after := enable_repeatedly (draws ++ [last]) userId d in
  Forall (λ answer, answer = Ok (redirect "/settings/profile/two-factor/verify"))
         (fst after)
  ∧ length (fst after) = S (length draws)
  ∧ unique_target_type (verification (snd after))
  ∧ ∃ row,
      filter (target_type twoFAVerifyVerificationType userId) (verification (snd after))
        = [row]
      ∧ TwoFactorIndex.verificationData (draw_generated last) userId ⊆ row
      ∧ ∀ g, draw_generated last = generated_object g →
          row !! "secret" = Some (VStr (secret g))
          ∧ row !! "algorithm" = Some (VStr (algorithm g))
          ∧ row !! "period" = Some (VNum (period g))
          ∧ row !! "digits" = Some (VNum (digits g))
          ∧ row !! "charSet" = Some (VStr (charSet g)).
Proof.
  intros Hunique after. subst after. rewrite enable_repeatedly_snoc.
  destruct (enable_repeatedly_ok draws userId d Hunique) as (Hall & Hlen & Hunique1).
  destruct (enable_repeatedly draws userId d) as [answers d1]. simpl in *.
  destruct (enable_once last userId d1 Hunique1) as (row & d2 & -> & Hunique2 & Hone & Hsub).
  simpl. split_and!.
  - apply Forall_app. split; [done|]. by constructor.
  - rewrite length_app. simpl. lia.
  - done.
  - exists row. split_and!; [done..|].
    intros g Hg. rewrite Hg in Hsub.
    split_and!; (eapply lookup_weaken; [|exact Hsub]); reflexivity.
Qed.

(** ** What the enable action stores *)

Lemma verificationData_no_otp generated userId :
  TwoFactorIndex.verificationData generated userId !! "otp" = None.
Proof.
  unfold TwoFactorIndex.verificationData.
  rewrite !lookup_insert_ne by done. apply lookup_delete_eq.
Qed.

Lemma upsert_no_otp ty tg (data : object) newId now d :
  data !! "otp" = None →
  Forall (λ row : object, row !! "otp" = None) (verification d) →
  Forall (λ row : object, row !! "otp" = None)
         (verification (snd (verification_.upsert ty tg data data newId now d))).
Proof.
  intros Hdata Hrows. unfold verification_.upsert.
  destruct (list_find (target_type ty tg) (verification d)) as [[i row]|] eqn:Hfind.
  - unfold verification_.write_at. case_decide; [done|]. simpl.
    apply list_find_Some in Hfind as (Hi & _).
    apply Forall_insert; [done|].
    apply lookup_union_None. split; [done|].
    rewrite Forall_forall in Hrows. apply Hrows.
    apply list_elem_of_lookup. by exists i.
  - unfold verification_.create. case_decide; [done|]. simpl.
    apply Forall_app. split; [done|]. constructor; [|done].
    apply lookup_union_None. by split.
Qed.

(** C8. The data the enable action hands to the store is the generator's
    answer without its [otp] field, completed with type "2fa-verify" and
    the user id as target: exactly secret, algorithm, period, digits,
    charSet, type and target. The code itself never reaches the store:
    the action behaves the same whatever code the generator derived, a new
    record is that data plus the store's own columns, and no stored row
    gains an [otp] field. *)
Theorem enable_discards_otp (g : generated) newId now userId d :
  let data := TwoFactorIndex.verificationData (generated_object g) userId in
  let after := TwoFactorIndex.action (generated_object g) newId now userId d in
  data = {[ "secret" := VStr (secret g); "algorithm" := VStr (algorithm g);
            "period" := VNum (period g); "digits" := VNum (digits g);
            "charSet" := VStr (charSet g);
            "type" := VStr "2fa-verify"; "target" := VStr userId ]}
  ∧ data !! "otp" = None
  ∧ (∀ code,
       TwoFactorIndex.action
         (generated_object
            (mkGenerated (secret g) (algorithm g) (period g) (digits g) (charSet g) code))
         newId now userId d
       = after)
  ∧ (lookup_verification twoFAVerifyVerificationType userId d = None →
       after = (Ok (redirect "/settings/profile/two-factor/verify"),
                set_verification
                  (verification d ++ [data ∪ verification_.defaults newId now]) d)
       ∧ (data ∪ verification_.defaults newId now) !! "otp" = None)
  ∧ (Forall (λ row : object, row !! "otp" = None) (verification d) →
       Forall (λ row : object, row !! "otp" = None) (verification (snd after))).
Proof.
  intros data after.
  assert (data = {[ "secret" := VStr (secret g); "algorithm" := VStr (algorithm g);
            "period" := VNum (period g); "digits" := VNum (digits g);
            "charSet" := VStr (charSet g);
            "type" := VStr "2fa-verify"; "target" := VStr userId ]}) as Hdata.
  { reflexivity. }
  split_and!.
  - done.
  - apply verificationData_no_otp.
  - intros code. reflexivity.
  - intros Hnone. apply fmap_None in Hnone.
    assert (target_type twoFAVerifyVerificationType userId
              (data ∪ verification_.defaults newId now)) as Hkey
      by apply target_type_union, verificationData_keyed.
    split.
    + subst after. unfold TwoFactorIndex.action, mbind, prisma_bind.
      unfold verification_.upsert. fold data. rewrite Hnone.
      unfold verification_.create.
      rewrite decide_False; [done|]. by eapply key_not_in_when_absent.
    + apply lookup_union_None. split; [apply verificationData_no_otp|done].
  - intros Hrows. subst after. unfold TwoFactorIndex.action, mbind, prisma_bind.
    pose proof (upsert_no_otp twoFAVerifyVerificationType userId data newId now d
                  (verificationData_no_otp _ _) Hrows) as Hafter.
    fold data.
    by destruct (verification_.upsert _ _ data data newId now d) as [[?|?] ?].
Qed.

(** ** Signing out of the other sessions *)

Lemma signOut_falsy sessionId userId d :
  Profile.truthy sessionId = false →
  Profile.signOutOfSessionsAction sessionId userId d
  = (Throw (ThrownResponse 400 "You must be authenticated to sign out of other sessions"), d).
Proof.
  intros Hfalsy. unfold Profile.signOutOfSessionsAction, invariantResponse.
  by rewrite Hfalsy.
Qed.

Lemma signOut_truthy current userId d :
  current ≠ "" →
  Profile.signOutOfSessionsAction (Some current) userId d
  = (Ok (json StatusSuccess 200),
     set_session
       (filter (λ s, ¬ (session_userId s = userId ∧ Some (session_id s) ≠ Some current))
               (session d)) d).
Proof.
  intros Hcurrent. unfold Profile.signOutOfSessionsAction, invariantResponse.
  unfold Profile.truthy. by rewrite bool_decide_true.
Qed.

(** C9. With a session id in the auth cookie, the action answers with
    success and the session table keeps, in order, exactly the rows that
    are not (owned by the user and different from the cookie's session):
    the current session and every session of another user stay, every
    other session of the user goes, and no other table changes. Without a
    session id in the cookie (missing or empty) the action throws its 400
    response and changes nothing. *)
Theorem sign_out_deletes_only_other_sessions sessionId userId d :
  let after := Profile.signOutOfSessionsAction sessionId userId d in
  (∀ current, sessionId = Some current → current ≠ "" →
     fst after = Ok (json StatusSuccess 200)
     ∧ (∀ s, s ∈ session (snd after) ↔
          s ∈ session d ∧ (session_userId s ≠ userId ∨ session_id s = current))
     ∧ session (snd after)
       = filter (λ s, ¬ (session_userId s = userId ∧ session_id s ≠ current)) (session d)
     ∧ (verification (snd after), connection (snd after), user (snd after), password (snd after))
       = (verification d, connection d, user d, password d))
  ∧ (Profile.truthy sessionId = false →
     after = (Throw (ThrownResponse 400
                "You must be authenticated to sign out of other sessions"), d)).
Proof.
  intros after. split.
  - intros current -> Hcurrent. subst after.
    rewrite (signOut_truthy current userId d Hcurrent). cbn [fst snd].
    assert (filter (λ s, ¬ (session_userId s = userId ∧ Some (session_id s) ≠ Some current))
              (session d)
            = filter (λ s, ¬ (session_userId s = userId ∧ session_id s ≠ current))
                (session d)) as Hfilter.
    { apply list_filter_iff. intros s. split; intros Hs [Hu Hid]; apply Hs; split;
        try done; congruence. }
    split_and!; [done| |by simpl|done].
    intros s. simpl. rewrite Hfilter, list_elem_of_filter.
    destruct (decide (session_userId s = userId)), (decide (session_id s = current));
      tauto.
  - intros Hfalsy. subst after. by apply signOut_falsy.
Qed.

(** ** Deleting a provider connection *)

Lemma userCanDeleteConnections_spec userId d :
  ∃ allowed,
    Connections.userCanDeleteConnections userId d = (Ok allowed, d)
    ∧ (allowed = true → has_password userId d ∨ (1 < connection_count userId d)%nat)
    ∧ (Exists (λ u, user_id u = userId) (user d) →
       has_password userId d ∨ (1 < connection_count userId d)%nat →
       allowed = true).
Proof.
  unfold Connections.userCanDeleteConnections, user_.findUnique, mbind, prisma_bind.
  destruct (list_find (λ u, user_id u = userId) (user d)) as [[? ?]|] eqn:Huser.
  - destruct (list_find (λ p, password_userId p = userId) (password d))
      as [[j p]|] eqn:Hpw; simpl.
    + eexists. split; [done|]. split; [|done]. intros _. left.
      apply list_find_Some in Hpw as (Hj & Hp & _).
      apply Exists_exists. exists p. split; [|done].
      apply list_elem_of_lookup. by exists j.
    + fold (connection_count userId d).
      apply list_find_None in Hpw.
      assert (¬ has_password userId d) as Hnopw.
      { intros Hex. apply Exists_exists in Hex as (p & Hin & Hp).
        rewrite Forall_forall in Hpw. by apply (Hpw p). }
      eexists. split; [done|]. split.
      * intros Hallowed. right. case_decide; [done|]. by apply bool_decide_eq_true in Hallowed.
      * intros _ [?|Hcount]; [done|]. rewrite decide_False by lia.
        by apply bool_decide_eq_true.
  - eexists. split; [done|]. split; [done|].
    intros Hex. apply list_find_None in Huser.
    apply Exists_exists in Hex as (u & Hin & Hu).
    rewrite Forall_forall in Huser. by destruct (Huser u Hin).
Qed.

Lemma action_not_allowed userId formData d :
  Connections.userCanDeleteConnections userId d = (Ok false, d) →
  (∃ e, fst (Connections.action userId formData d) = Throw e)
  ∧ snd (Connections.action userId formData d) = d
  ∧ (formData !! "intent" = Some "delete-connection" →
     fst (Connections.action userId formData d)
     = Throw (ThrownResponse 400
         "You cannot delete your last connection unless you have a password.")).
Proof.
  intros Hcan. unfold Connections.action, invariantResponse.
  destruct (bool_decide (formData !! "intent" = Some "delete-connection")) eqn:Hintent.
  - unfold mbind, prisma_bind, mret, prisma_ret. rewrite Hcan. simpl. eauto.
  - simpl. split_and!; [eauto|done|].
    intros Heq. by apply bool_decide_eq_false in Hintent.
Qed.

(** C10. The action changes the database only when the user has a
    password or owns more than one connection. When the user has no
    password and at most one connection the request is rejected with a
    thrown error (the 400 "You cannot delete your last connection unless
    you have a password." for a delete-connection form) and nothing is
    deleted. When the guard holds for an existing user and the form names
    one of their connections, exactly that row is removed. *)
Theorem delete_connection_needs_password_or_spare userId formData d :
  let after := Connections.action userId formData d in
  (snd after ≠ d → has_password userId d ∨ (1 < connection_count userId d)%nat)
  ∧ (¬ has_password userId d → (connection_count userId d ≤ 1)%nat →
       (∃ e, fst after = Throw e)
       ∧ snd after = d
       ∧ (formData !! "intent" = Some "delete-connection" →
          fst after = Throw (ThrownResponse 400
            "You cannot delete your last connection unless you have a password.")))
  ∧ (∀ connectionId i row,
       Exists (λ u, user_id u = userId) (user d) →
       has_password userId d ∨ (1 < connection_count userId d)%nat →
       formData !! "intent" = Some "delete-connection" →
       formData !! "connectionId" = Some connectionId →
       list_find (λ c, connection_id c = connectionId ∧ connection_userId c = userId)
                 (connection d) = Some (i, row) →
       after = (Ok (json StatusSuccess 200), set_connection (delete i (connection d)) d)).
Proof.
  intros after.
  destruct (userCanDeleteConnections_spec userId d) as (allowed & Hcan & Honly & Hwhen).
  split_and!.
  - intros Hchanged. destruct allowed; [by apply Honly|].
    destruct Hchanged. subst after.
    by destruct (action_not_allowed userId formData d Hcan) as (_ & ? & _).
  - intros Hnopw Hcount. destruct allowed.
    + destruct (Honly eq_refl) as [?|?]; [done|lia].
    + subst after. by apply action_not_allowed.
  - intros connectionId i row Huser Hguard Hintent Hid Hfind.
    rewrite (Hwhen Huser Hguard) in Hcan.
    subst after. unfold Connections.action, invariantResponse.
    rewrite bool_decide_true by done.
    unfold mbind, prisma_bind, mret, prisma_ret. rewrite Hcan, Hid. simpl.
    unfold connection_.delete. by rewrite Hfind.
Qed.

(** ** Validation of one-time codes *)

Lemma filter_singleton_find {A} (P : A → Prop) `{!∀ x, Decision (P x)} (l : list A) x :
  filter P l = [x] → ∃ i, list_find P l = Some (i, x).
Proof.
  intros Hfilter.
  assert (x ∈ filter P l) as Hx by (rewrite Hfilter; left).
  apply list_elem_of_filter in Hx as [HP Hin].
  destruct (list_find P l) as [[i y]|] eqn:Hfind.
  - exists i. apply list_find_Some in Hfind as (Hi & Hy & _).
    assert (y ∈ filter P l) as Hyin.
    { apply list_elem_of_filter. split; [done|]. apply list_elem_of_lookup. by exists i. }
    rewrite Hfilter in Hyin. apply list_elem_of_singleton in Hyin. by subst y.
  - apply list_find_None in Hfind. rewrite Forall_forall in Hfind.
    by destruct (Hfind x Hin).
Qed.

Section validator.
Variable hmac : string → list Z → list Z → list Z.

Abbreviation hotp := (Code.hotp hmac).
Abbreviation isValid := (Code.isValid hmac).

Lemma isValid_time_based record algorithm secret period digits now submitted :
  time_based record algorithm secret period digits →
  Code.expired record now = false →
  isValid submitted (Some record) now = true
  ↔ ∃ w, Code.window period now - 1 ≤ w ≤ Code.window period now + 1
         ∧ submitted = hotp algorithm secret digits w.
Proof.
  intros (Halg & Hsecret & Hperiod & Hdigits & Hkind) Hfresh.
  unfold Code.isValid, Code.code_matches.
  rewrite Hfresh, Halg, Hsecret, Hperiod, Hdigits. simpl.
  rewrite decide_False by done.
  rewrite bool_decide_eq_true, Exists_exists.
  unfold Code.tolerated, Code.window_tolerance.
  split; intros (w & Hw & Hcode); exists w.
  - apply elem_of_seqZ in Hw. split; [lia|done].
  - split; [apply elem_of_seqZ; lia|done].
Qed.

Lemma isValid_expired record now submitted :
  Code.expired record now = true → isValid submitted (Some record) now = false.
Proof. intros Hexpired. unfold Code.isValid. by rewrite Hexpired. Qed.

(** C7 (amended). For a stored time-based record that has not expired,
    validation accepts the code of the current window and the codes of
    the two adjacent windows, accepts a submitted code exactly when it
    is the code of one of these three windows, and therefore rejects the
    code of a window two or more periods away whenever that code differs
    from the three tolerated codes. *)
Theorem totp_accepts_exactly_tolerated_windows
    record algorithm secret period digits now :
  time_based record algorithm secret period digits →
  Code.expired record now = false →
  let current := Code.window period now in
  let code := hotp algorithm secret digits in
  isValid (code current) (Some record) now = true
  ∧ isValid (code (current - 1)) (Some record) now = true
  ∧ isValid (code (current + 1)) (Some record) now = true
  ∧ (∀ submitted,
       isValid submitted (Some record) now = true
       ↔ submitted ∈ [code (current - 1); code current; code (current + 1)])
  ∧ (∀ w, 2 ≤ Z.abs (w - current) →
       code w ∉ [code (current - 1); code current; code (current + 1)] →
       isValid (code w) (Some record) now = false).
Proof.
  intros Hrecord Hfresh current code.
  pose proof (isValid_time_based record algorithm secret period digits now) as Hiff.
  assert (∀ submitted,
       isValid submitted (Some record) now = true
       ↔ submitted ∈ [code (current - 1); code current; code (current + 1)]) as Hlist.
  { intros submitted. rewrite (Hiff submitted Hrecord Hfresh). fold current.
    rewrite !elem_of_cons, elem_of_nil. split.
    - intros (w & Hw & ->).
      destruct (decide (w = current - 1)) as [->|]; [by left|].
      destruct (decide (w = current)) as [->|]; [by right; left|].
      assert (w = current + 1) as -> by lia. by right; right; left.
    - intros [->|[->|[->|[]]]]; eexists; (split; [|done]); lia. }
  split_and!.
  - apply Hlist. rewrite !elem_of_cons. auto.
  - apply Hlist. rewrite !elem_of_cons. auto.
  - apply Hlist. rewrite !elem_of_cons. auto.
  - done.
  - intros w _ Hw. apply not_true_is_false. by rewrite Hlist.
Qed.

End validator.

(** ** The change-email request and its expiry *)

Section change_email.
Variable hmac : string → list Z → list Z → list Z.
Variables (algorithm : string) (digits : Z) (charSet : string).
Variable EmailSchema : string → zod_parsed string.
Variable sendEmail : string → string → option string.
Variable redirectTo : string.

Lemma prepareVerification_stores period ty tg random newId now d :
  unique_target_type (verification d) →
  let g := Code.generate hmac algorithm period digits charSet random now in
  ∃ row d',
    Code.prepareVerification hmac algorithm digits charSet period ty tg random newId now d
      = (Ok (otp g), d')
    ∧ lookup_verification ty tg d' = Some row
    ∧ row !! "expiresAt" = Some (VDate (now + period * 1000))
    ∧ row !! "algorithm" = Some (VStr algorithm)
    ∧ row !! "secret" = Some (VStr random)
    ∧ row !! "period" = Some (VNum period)
    ∧ row !! "digits" = Some (VNum digits).
Proof.
  intros Hunique g. unfold Code.prepareVerification. fold g.
  set (data := <["expiresAt" := VDate (now + period * 1000)]> _).
  assert (target_type ty tg data) as Hkey.
  { subst data. split.
    - rewrite !lookup_insert_ne by done. by rewrite lookup_insert_eq.
    - rewrite lookup_insert_ne by done. by rewrite lookup_insert_eq. }
  destruct (upsert_keyed ty tg data newId now d Hunique Hkey)
    as (row & rows' & Hrun & _ & Hone & Hsub).
  exists row, (set_verification rows' d).
  unfold mbind, prisma_bind. rewrite Hrun.
  apply filter_singleton_find in Hone as [i Hfind].
  split_and!; [done| |(eapply lookup_weaken; [|exact Hsub]); reflexivity..].
  unfold lookup_verification. simpl. by rewrite Hfind.
Qed.

Lemma generated_code_valid_within_period period random now t (record : object) :
  record !! "expiresAt" = Some (VDate (now + period * 1000)) →
  record !! "algorithm" = Some (VStr algorithm) →
  record !! "secret" = Some (VStr random) →
  record !! "period" = Some (VNum period) →
  record !! "digits" = Some (VNum digits) →
  0 < period →
  now ≤ t < now + period * 1000 →
  Code.isValid hmac (otp (Code.generate hmac algorithm period digits charSet random now))
    (Some record) t = true.
Proof.
  intros Hexp Halg Hsecret Hperiod Hdigits Hpos Ht.
  unfold Code.isValid, Code.expired, Code.code_matches.
  rewrite Hexp, Halg, Hsecret, Hperiod, Hdigits.
  rewrite (bool_decide_false (now + period * 1000 ≤ t)) by lia. simpl.
  unfold Code.generate. simpl.
  destruct (decide (algorithm = Code.simple_random)); [by apply bool_decide_eq_true|].
  apply bool_decide_eq_true, Exists_exists.
  exists (Code.window period now). split; [|done].
  unfold Code.tolerated, Code.window_tolerance, Code.window.
  apply elem_of_seqZ.
  assert (now / 1000 ≤ t / 1000 ≤ now / 1000 + period) as Hsec
    by (clear -Ht; Z.to_euclidean_division_equations; lia).
  assert (now / 1000 / period ≤ t / 1000 / period) as Hlow
    by (apply Z.div_le_mono; lia).
  assert (t / 1000 / period ≤ now / 1000 / period + 1) as Hhigh.
  { transitivity ((now / 1000 + period) / period); [apply Z.div_le_mono; lia|].
    replace (now / 1000 + period) with (now / 1000 + 1 * period) by lia.
    rewrite Z.div_add by lia. lia. }
  lia.
Qed.

(** C6. The change-email action requests its verification with a period
    of 10 * 60 seconds; the stored record for ("change-email", userId)
    has that period and expires ten minutes after the request. The code
    handed to the mailer is accepted at every instant before the expiry,
    five minutes after the request in particular, and from the expiry
    instant on every code is rejected, the right one included, eleven
    minutes after the request in particular. *)
Theorem change_email_code_valid_until_expiry userId random newId t0 formData email d :
  unique_target_type (verification d) →
  ChangeEmail.ChangeEmailSchema EmailSchema formData = Valid email →
  list_find (λ u, user_email u = email) (user d) = None →
  let after :=
    ChangeEmail.action hmac algorithm digits charSet EmailSchema sendEmail redirectTo
      userId random newId t0 formData d in
  let code := otp (Code.generate hmac algorithm (10 * 60) digits charSet random t0) in
  let valid submitted t :=
    Code.isCodeValid hmac submitted "change-email" userId t (verification (snd after)) in
  fst after
  = Ok (match sendEmail email code with
        | None => redirectWithSession redirectTo ChangeEmail.newEmailAddressSessionKey email
        | Some message => json (Reply [FormError message]) 500
        end)
  ∧ (∃ row,
       lookup_verification "change-email" userId (snd after) = Some row
       ∧ row !! "period" = Some (VNum 600)
       ∧ row !! "expiresAt" = Some (VDate (t0 + 10 * 60 * 1000)))
  ∧ (∀ t, t0 ≤ t < t0 + 10 * 60 * 1000 → valid code t = true)
  ∧ (∀ t submitted, t0 + 10 * 60 * 1000 ≤ t → valid submitted t = false)
  ∧ valid code (t0 + 5 * 60 * 1000) = true
  ∧ valid code (t0 + 11 * 60 * 1000) = false.
Proof.
  intros Hunique Hschema Hfree after code valid.
  destruct (prepareVerification_stores (10 * 60) "change-email" userId random newId t0 d
              Hunique) as (row & d' & Hrun & Hrow & Hexp & Halg & Hsecret & Hperiod & Hdigits).
  assert (after = (Ok (match sendEmail email code with
        | None => redirectWithSession redirectTo ChangeEmail.newEmailAddressSessionKey email
        | Some message => json (Reply [FormError message]) 500
        end), d')) as Hafter.
  { subst after. unfold ChangeEmail.action, with_refinement. rewrite Hschema.
    unfold mbind, prisma_bind, mret, prisma_ret, ChangeEmail.refinement.
    rewrite Hfree, Hrun. fold code. by destruct (sendEmail email code). }
  assert (∀ submitted t, valid submitted t = Code.isValid hmac submitted (Some row) t)
    as Hvalid.
  { intros submitted t. subst valid. simpl. rewrite Hafter. simpl.
    unfold Code.isCodeValid. unfold lookup_verification in Hrow. by rewrite Hrow. }
  assert (∀ t, t0 ≤ t < t0 + 10 * 60 * 1000 → valid code t = true) as Hbefore.
  { intros t Ht. rewrite Hvalid.
    apply generated_code_valid_within_period; try done; lia. }
  assert (∀ t submitted, t0 + 10 * 60 * 1000 ≤ t → valid submitted t = false) as Hlate.
  { intros t submitted Ht. rewrite Hvalid. apply isValid_expired.
    unfold Code.expired. rewrite Hexp. apply bool_decide_eq_true. lia. }
  split_and!.
  - by rewrite Hafter.
  - exists row. rewrite Hafter. by simpl.
  - done.
  - done.
  - apply Hbefore. lia.
  - apply Hlate. lia.
Qed.

End change_email.

(** * The properties on the worked scenario *)

Ltac by_evaluation :=
  match goal with
  | |- ?P => apply (bool_decide_eq_true_1 P); vm_compute; reflexivity
  end.

Lemma scenario_pending_rows : verification Scenario.pending = [Scenario.pending_row].
Proof. by_evaluation. Qed.

Lemma scenario_pending_find :
  list_find (target_type twoFAVerifyVerificationType "user-42")
            (verification Scenario.pending) = Some (0%nat, Scenario.pending_row).
Proof. by_evaluation. Qed.

Lemma scenario_pending_unique : unique_target_type (verification Scenario.pending).
Proof. by_evaluation. Qed.

Lemma isCodeValid_absent hmac code ty tg now rows :
  list_find (target_type ty tg) rows = None →
  Code.isCodeValid hmac code ty tg now rows = false.
Proof. intros Hnone. unfold Code.isCodeValid. by rewrite Hnone. Qed.

Lemma verify_success_marks_record_enabled_witness :
  Scenario.isCodeValid "755224" "2fa-verify" "user-42" 10000
    (verification Scenario.pending) = true
  ∧ TwoFactorVerify.action Scenario.isCodeValid "user-42" 10000
      (TwoFactorVerify.verifyForm "755224") Scenario.pending
    = (Ok (redirectWithToast "/settings/profile/two-factor" TwoFactorVerify.enabledToast),
       marked_enabled 0 Scenario.pending_row Scenario.pending)
  ∧ verification (marked_enabled 0 Scenario.pending_row Scenario.pending) !! 0%nat
    = Some (<["type" := VStr "2fa"]> Scenario.pending_row)
  ∧ TwoFactorIndex.loader "user-42" (marked_enabled 0 Scenario.pending_row Scenario.pending)
    = (Ok (json (Is2FAEnabled true) 200),
       marked_enabled 0 Scenario.pending_row Scenario.pending).
Proof.
  assert (Scenario.isCodeValid "755224" "2fa-verify" "user-42" 10000
            (verification Scenario.pending) = true) as Hvalid
    by (vm_compute; reflexivity).
  destruct (verify_success_marks_record_enabled Scenario.isCodeValid "user-42" 10000
              "755224" Scenario.pending 0%nat Scenario.pending_row
              scenario_pending_find eq_refl Hvalid)
    as (_ & Hrun & _ & Hrow & _ & _ & _ & _ & Hloader).
  split_and!; [exact Hvalid| |exact Hrow|exact Hloader].
  apply Hrun. vm_compute. reflexivity.
Defined.

Lemma repeated_enable_leaves_one_pending_witness :
  unique_target_type (verification Scenario.empty)
  ∧ ∃ row,
      filter (target_type twoFAVerifyVerificationType "user-42")
        (verification
           (snd (enable_repeatedly
                   ([Scenario.first_draw; Scenario.second_draw] ++ [Scenario.third_draw])
                   "user-42" Scenario.empty)))
      = [row]
      ∧ row !! "secret" = Some (VStr "third-secret").
Proof.
  assert (unique_target_type (verification Scenario.empty)) as Hunique
    by apply NoDup_nil_2.
  split; [exact Hunique|].
  destruct (repeated_enable_leaves_one_pending "user-42"
              [Scenario.first_draw; Scenario.second_draw] Scenario.third_draw
              Scenario.empty Hunique)
    as (_ & _ & _ & row & Hone & _ & Hconfig).
  exists row. split; [exact Hone|].
  exact (proj1 (Hconfig _ eq_refl)).
Defined.

(** C3 as stated fails: with no record stored for ("2fa-verify",
    "user-42"), the submission is answered with the "Invalid code" reply,
    which is not the not-found failure. *)
Lemma submit_without_record_is_not_NotFound :
  lookup_verification "2fa-verify" "user-42" Scenario.empty = None
  ∧ fst (TwoFactorVerify.action Scenario.isCodeValid "user-42" 10000
           (TwoFactorVerify.verifyForm "755224") Scenario.empty)
    = Ok (json (Reply [CustomIssue "code" "Invalid code"]) 400)
  ∧ failure_of
      (fst (TwoFactorVerify.action Scenario.isCodeValid "user-42" 10000
              (TwoFactorVerify.verifyForm "755224") Scenario.empty))
    ≠ Some NotFound.
Proof.
  split_and!; [by vm_compute..|].
  by vm_compute.
Qed.

Lemma submit_without_record_is_invalid_code_witness :
  (lookup_verification "2fa-verify" "user-42" Scenario.empty = None
   ∧ TwoFactorVerify.action Scenario.isCodeValid "user-42" 20000
       (TwoFactorVerify.verifyForm "755224") Scenario.empty
     = (Ok (json (Reply [invalidCodeIssue]) 400), Scenario.empty))
  ∧ (let first :=
       TwoFactorVerify.action Scenario.isCodeValid "user-42" 10000
         (TwoFactorVerify.verifyForm "755224") Scenario.pending in
     fst first
     = Ok (redirectWithToast "/settings/profile/two-factor" TwoFactorVerify.enabledToast)
     ∧ TwoFactorVerify.action Scenario.isCodeValid "user-42" 20000
         (TwoFactorVerify.verifyForm "755224") (snd first)
       = (Ok (json (Reply [invalidCodeIssue]) 400), snd first)).
Proof.
  assert ("755224" ≠ "") as Hcode by done.
  destruct (submit_without_record_is_invalid_code Scenario.isCodeValid "user-42" 20000
              "755224" (isCodeValid_absent hmac_sha1) Hcode) as [Habsent Hsecond].
  split.
  - assert (lookup_verification "2fa-verify" "user-42" Scenario.empty = None) as Hnone
      by reflexivity.
    split; [exact Hnone|].
    destruct (Habsent Scenario.empty Hnone) as (_ & Hfst & Hsnd).
    apply injective_projections; [exact Hfst|exact Hsnd].
  - assert (Scenario.isCodeValid "755224" "2fa-verify" "user-42" 10000
              (verification Scenario.pending) = true) as Hvalid
      by (vm_compute; reflexivity).
    assert (lookup_verification "2fa" "user-42" Scenario.pending = None) as Hfresh
      by (vm_compute; reflexivity).
    destruct (Hsecond Scenario.pending 0%nat Scenario.pending_row 10000
                scenario_pending_unique scenario_pending_find eq_refl Hvalid Hfresh)
      as (Hfirst & _ & _ & Hagain).
    split; [by rewrite Hfirst|exact Hagain].
Defined.

Lemma wrong_code_leaves_record_pending_witness :
  lookup_verification "2fa-verify" "user-42" Scenario.pending = Some Scenario.pending_row
  ∧ Scenario.isCodeValid "000000" "2fa-verify" "user-42" 10000
      (verification Scenario.pending) = false
  ∧ fst (TwoFactorVerify.action Scenario.isCodeValid "user-42" 10000
           (TwoFactorVerify.verifyForm "000000") Scenario.pending)
    = Ok (json (Reply [invalidCodeIssue]) 400)
  ∧ snd (TwoFactorVerify.action Scenario.isCodeValid "user-42" 10000
           (TwoFactorVerify.verifyForm "000000") Scenario.pending)
    = Scenario.pending.
Proof.
  assert (lookup_verification "2fa-verify" "user-42" Scenario.pending
          = Some Scenario.pending_row) as Hrow
    by by_evaluation.
  assert (Scenario.isCodeValid "000000" "2fa-verify" "user-42" 10000
            (verification Scenario.pending) = false) as Hinvalid
    by (vm_compute; reflexivity).
  destruct (wrong_code_leaves_record_pending Scenario.isCodeValid "user-42" 10000
              "000000" Scenario.pending Scenario.pending_row Hrow Hinvalid)
    as (_ & _ & Hreply & Hsame & _).
  split_and!; [exact Hrow|exact Hinvalid|exact (Hreply eq_refl)|exact Hsame].
Defined.

Lemma cancel_deletes_and_is_idempotent_witness :
  verification
    (snd (TwoFactorVerify.action Scenario.isCodeValid "user-42" 10000
            TwoFactorVerify.cancelForm Scenario.pending)) = []
  ∧ TwoFactorVerify.action Scenario.isCodeValid "user-42" 10000
      TwoFactorVerify.cancelForm Scenario.empty
    = (Ok (redirect "/settings/profile/two-factor"), Scenario.empty).
Proof.
  split.
  - destruct (cancel_deletes_and_is_idempotent Scenario.isCodeValid "user-42" 10000 20000
                Scenario.pending) as (-> & _).
    by_evaluation.
  - destruct (cancel_deletes_and_is_idempotent Scenario.isCodeValid "user-42" 10000 20000
                Scenario.empty) as (_ & _ & _ & Hnoop & _).
    apply Hnoop. reflexivity.
Defined.

Lemma change_email_code_valid_until_expiry_witness :
  let after :=
    ChangeEmail.action hmac_sha1 "SHA-1" 6 "0123456789" Scenario.EmailSchema
      Scenario.sendEmail "/verify" "user-7" "12345678901234567890" "verification-9" 0
      Scenario.emailForm Scenario.connections in
  let valid submitted t :=
    Code.isCodeValid hmac_sha1 submitted "change-email" "user-7" t
      (verification (snd after)) in
  unique_target_type (verification Scenario.connections)
  ∧ fst after = Ok (redirectWithSession "/verify" "new-email-address" "new@example.com")
  ∧ valid "755224" (5 * 60 * 1000) = true
  ∧ valid "755224" (11 * 60 * 1000) = false.
Proof.
  intros after valid.
  assert (unique_target_type (verification Scenario.connections)) as Hunique
    by apply NoDup_nil_2.
  destruct (change_email_code_valid_until_expiry hmac_sha1 "SHA-1" 6 "0123456789"
              Scenario.EmailSchema Scenario.sendEmail "/verify" "user-7"
              "12345678901234567890" "verification-9" 0 Scenario.emailForm
              "new@example.com" Scenario.connections Hunique eq_refl eq_refl)
    as (Hanswer & _ & _ & _ & Hfive & Heleven).
  assert (otp (Code.generate hmac_sha1 "SHA-1" (10 * 60) 6 "0123456789"
                 "12345678901234567890" 0) = "755224") as Hcode
    by (vm_compute; reflexivity).
  rewrite Hcode in Hanswer, Hfive, Heleven.
  split_and!; [exact Hunique|exact Hanswer|exact Hfive|exact Heleven].
Defined.

(** C7 as stated fails: at the instant 4607010000 ms the current window
    of a 30 second period is 153567; the code derived for window 153569,
    two periods later, is "468457", which is also the code of the current
    window, so validation accepts it and the verify action enables
    two-factor authentication with it. *)
Lemma totp_code_two_windows_away_is_accepted :
  Code.window 30 4607010000 = 153567
  ∧ Code.hotp hmac_sha1 "SHA-1" "12345678901234567890" 6 (153567 + 2) = "468457"
  ∧ Code.isValid hmac_sha1
      (Code.hotp hmac_sha1 "SHA-1" "12345678901234567890" 6 (153567 + 2))
      (Some Scenario.pending_row) 4607010000 = true
  ∧ fst (TwoFactorVerify.action Scenario.isCodeValid "user-42" 4607010000
           (TwoFactorVerify.verifyForm
              (Code.hotp hmac_sha1 "SHA-1" "12345678901234567890" 6 (153567 + 2)))
           Scenario.pending)
    = Ok (redirectWithToast "/settings/profile/two-factor" TwoFactorVerify.enabledToast).
Proof. split_and!; vm_compute; reflexivity. Qed.

Lemma scenario_time_based :
  time_based Scenario.pending_row "SHA-1" "12345678901234567890" 30 6.
Proof. by split_and!. Qed.

Lemma totp_accepts_exactly_tolerated_windows_witness :
  Code.expired Scenario.pending_row 40000 = false
  ∧ Code.window 30 40000 = 1
  ∧ Code.isValid hmac_sha1 "755224" (Some Scenario.pending_row) 40000 = true
  ∧ Code.isValid hmac_sha1 "287082" (Some Scenario.pending_row) 40000 = true
  ∧ Code.isValid hmac_sha1 "359152" (Some Scenario.pending_row) 40000 = true
  ∧ Code.isValid hmac_sha1 "969429" (Some Scenario.pending_row) 40000 = false.
Proof.
  assert (Code.expired Scenario.pending_row 40000 = false) as Hfresh by reflexivity.
  assert (Code.hotp hmac_sha1 "SHA-1" "12345678901234567890" 6 0 = "755224") as H0
    by (vm_compute; reflexivity).
  assert (Code.hotp hmac_sha1 "SHA-1" "12345678901234567890" 6 1 = "287082") as H1
    by (vm_compute; reflexivity).
  assert (Code.hotp hmac_sha1 "SHA-1" "12345678901234567890" 6 2 = "359152") as H2
    by (vm_compute; reflexivity).
  assert (Code.hotp hmac_sha1 "SHA-1" "12345678901234567890" 6 3 = "969429") as H3
    by (vm_compute; reflexivity).
  destruct (totp_accepts_exactly_tolerated_windows hmac_sha1 Scenario.pending_row
              "SHA-1" "12345678901234567890" 30 6 40000 scenario_time_based Hfresh)
    as (Hcurrent & Hprevious & Hnext & _ & Hfar).
  change (Code.window 30 40000) with 1 in *.
  change (1 - 1) with 0 in *. change (1 + 1) with 2 in *.
  rewrite H1 in Hcurrent. rewrite H0 in Hprevious. rewrite H2 in Hnext.
  rewrite H0, H1, H2 in Hfar.
  split_and!; [exact Hfresh|reflexivity|exact Hprevious|exact Hcurrent|exact Hnext|].
  specialize (Hfar 3). rewrite H3 in Hfar.
  apply Hfar; [by vm_compute|].
  rewrite !elem_of_cons, elem_of_nil. by intros [?|[?|[?|[]]]].
Defined.

Lemma enable_discards_otp_witness :
  lookup_verification twoFAVerifyVerificationType "user-42" Scenario.empty = None
  ∧ otp Scenario.drawn = "755224"
  ∧ verification
      (snd (TwoFactorIndex.action (generated_object Scenario.drawn) "verification-1" 0
              "user-42" Scenario.empty))
    = [Scenario.pending_row]
  ∧ Scenario.pending_row !! "otp" = None.
Proof.
  assert (lookup_verification twoFAVerifyVerificationType "user-42" Scenario.empty = None)
    as Hnone by reflexivity.
  destruct (enable_discards_otp Scenario.drawn "verification-1" 0 "user-42" Scenario.empty)
    as (_ & _ & _ & Hstored & _).
  destruct (Hstored Hnone) as [-> _].
  split_and!; [exact Hnone|by vm_compute|by_evaluation|by vm_compute].
Defined.

Lemma sign_out_deletes_only_other_sessions_witness :
  session (snd (Profile.signOutOfSessionsAction (Some "s2") "user-42" Scenario.sessions))
  = [ mkSession "s2" "user-42" 100; mkSession "s3" "user-7" 100;
      mkSession "s5" "user-7" 100 ]
  ∧ Profile.signOutOfSessionsAction None "user-42" Scenario.sessions
    = (Throw (ThrownResponse 400
         "You must be authenticated to sign out of other sessions"), Scenario.sessions).
Proof.
  split.
  - assert ("s2" ≠ "") as Hcurrent by done.
    destruct (sign_out_deletes_only_other_sessions (Some "s2") "user-42" Scenario.sessions)
      as [Hsome _].
    destruct (Hsome "s2" eq_refl Hcurrent) as (_ & _ & -> & _).
    by vm_compute.
  - destruct (sign_out_deletes_only_other_sessions None "user-42" Scenario.sessions)
      as [_ Hnone].
    exact (Hnone eq_refl).
Defined.

Lemma delete_connection_needs_password_or_spare_witness :
  (¬ has_password "user-42" Scenario.connections
   ∧ (connection_count "user-42" Scenario.connections ≤ 1)%nat
   ∧ Connections.action "user-42" (Scenario.deleteForm "c1") Scenario.connections
     = (Throw (ThrownResponse 400
          "You cannot delete your last connection unless you have a password."),
        Scenario.connections))
  ∧ (has_password "user-7" Scenario.connections
     ∧ connection (snd (Connections.action "user-7" (Scenario.deleteForm "c2")
                          Scenario.connections))
       = [ mkConnection "c1" "user-42" "github" "gh-42" 0 ]).
Proof.
  split.
  - assert (¬ has_password "user-42" Scenario.connections) as Hnopw by by_evaluation.
    assert (connection_count "user-42" Scenario.connections ≤ 1)%nat as Hcount
      by by_evaluation.
    destruct (delete_connection_needs_password_or_spare "user-42"
                (Scenario.deleteForm "c1") Scenario.connections) as (_ & Hreject & _).
    destruct (Hreject Hnopw Hcount) as (_ & Hsame & Hthrown).
    split_and!; [exact Hnopw|exact Hcount|].
    apply injective_projections; [exact (Hthrown eq_refl)|exact Hsame].
  - assert (has_password "user-7" Scenario.connections) as Hpw by by_evaluation.
    destruct (delete_connection_needs_password_or_spare "user-7"
                (Scenario.deleteForm "c2") Scenario.connections) as (_ & _ & Hdelete).
    split; [exact Hpw|].
    rewrite (Hdelete "c2" 1%nat (mkConnection "c2" "user-7" "github" "gh-7" 0));
      [reflexivity|by_evaluation|by left|reflexivity|reflexivity|by_evaluation].
Defined.

(** * Further properties of the routes *)

(** ** List facts used below *)

Lemma list_split_at {A} (l : list A) i x :
  l !! i = Some x →
  l = take i l ++ x :: drop (S i) l
  ∧ delete i l = take i l ++ drop (S i) l
  ∧ ∀ y, <[i := y]> l = take i l ++ y :: drop (S i) l.
Proof.
  intros Hi. split_and!.
  - by rewrite take_drop_middle.
  - apply delete_take_drop.
  - intros y. apply insert_take_drop. by eapply lookup_lt_Some.
Qed.

Lemma NoDup_insert_fresh {A} (l : list A) i x y :
  NoDup l → l !! i = Some x → y ∉ delete i l → NoDup (<[i := y]> l).
Proof.
  intros Hnodup Hi Hy.
  destruct (list_split_at l i x Hi) as (Hl & Hdel & Hins).
  rewrite Hins. rewrite Hdel in Hy. rewrite Hl in Hnodup.
  apply NoDup_app in Hnodup as (Htake & Hdisj & Hrest).
  apply NoDup_cons in Hrest as [_ Hdrop].
  apply not_elem_of_app in Hy as [Hy1 Hy2].
  apply NoDup_app. split_and!; [done| |by apply NoDup_cons].
  intros z Hz Hz'. apply elem_of_cons in Hz' as [->|Hz']; [done|].
  apply (Hdisj z Hz). by right.
Qed.

Lemma filter_insert_outside {A} (Q : A → Prop) `{!∀ x, Decision (Q x)}
    (l : list A) i x y :
  l !! i = Some x → ¬ Q x → ¬ Q y → filter Q (<[i := y]> l) = filter Q l.
Proof.
  intros Hi Hx Hy.
  destruct (list_split_at l i x Hi) as (Hl & _ & Hins).
  rewrite Hins. rewrite Hl at 3.
  rewrite !filter_app. by rewrite !filter_cons_False.
Qed.

Lemma filter_delete_outside {A} (Q : A → Prop) `{!∀ x, Decision (Q x)}
    (l : list A) i x :
  l !! i = Some x → ¬ Q x → filter Q (delete i l) = filter Q l.
Proof.
  intros Hi Hx.
  destruct (list_split_at l i x Hi) as (Hl & Hdel & _).
  rewrite Hdel. rewrite Hl at 3.
  rewrite !filter_app. by rewrite filter_cons_False.
Qed.

Lemma filter_delete_inside {A} (Q : A → Prop) `{!∀ x, Decision (Q x)}
    (l : list A) i x :
  l !! i = Some x → Q x →
  S (length (filter Q (delete i l))) = length (filter Q l).
Proof.
  intros Hi Hx.
  destruct (list_split_at l i x Hi) as (Hl & Hdel & _).
  rewrite Hdel. rewrite Hl at 3.
  rewrite !filter_app, filter_cons_True by done.
  rewrite !length_app. simpl. lia.
Qed.

Lemma filter_filter_implied {A} (Q R : A → Prop)
    `{!∀ x, Decision (Q x)} `{!∀ x, Decision (R x)} (l : list A) :
  (∀ x, Q x → R x) → filter Q (filter R l) = filter Q l.
Proof.
  intros Himp. rewrite list_filter_filter. apply list_filter_iff.
  intros x. split; [by intros [? _]|]. intros Hq. split; [done|by apply Himp].
Qed.

Lemma Exists_filter_all {A} (P : A → Prop) (Q : A → Prop) `{!∀ x, Decision (Q x)}
    (l : list A) :
  Exists P (filter Q l) ↔ Exists (λ x, P x ∧ Q x) l.
Proof.
  rewrite !Exists_exists. split.
  - intros (x & Hin & Hp). apply list_elem_of_filter in Hin as [Hq Hin]. eauto.
  - intros (x & Hin & Hp & Hq). exists x. split; [|done].
    by apply list_elem_of_filter.
Qed.

Lemma Exists_via_filter {A} (P : A → Prop) `{!∀ x, Decision (P x)} (l : list A) :
  Exists P l ↔ filter P l ≠ [].
Proof.
  rewrite Exists_exists. split.
  - intros (x & Hin & Hp) Hnil.
    assert (x ∈ filter P l) as Hx by (by apply list_elem_of_filter).
    rewrite Hnil in Hx. by apply elem_of_nil in Hx.
  - intros Hne. destruct (filter P l) as [|x ?] eqn:E; [done|].
    assert (x ∈ filter P l) as Hx by (rewrite E; left).
    apply list_elem_of_filter in Hx as [? ?]. eauto.
Qed.

(** ** The two-factor flag *)

Lemma loader_2fa_flag userId d :
  TwoFactorIndex.loader userId d
  = (Ok (json (Is2FAEnabled
                 (bool_decide (Exists (target_type twoFAVerificationType userId)
                                      (verification d)))) 200), d).
Proof.
  unfold TwoFactorIndex.loader, verification_.findUnique, mbind, prisma_bind, mret, prisma_ret.
  destruct (list_find _ (verification d)) as [[i row]|] eqn:Hfind; simpl.
  - apply list_find_Some in Hfind as (Hi & Hrow & _).
    rewrite bool_decide_true; [done|]. apply Exists_exists. exists row.
    split; [|done]. apply list_elem_of_lookup. by exists i.
  - apply list_find_None in Hfind. rewrite bool_decide_false; [done|].
    intros Hex. apply Exists_exists in Hex as (row & Hin & Hrow).
    rewrite Forall_forall in Hfind. by apply (Hfind row).
Qed.

Lemma verify_action_cases isCodeValid userId now formData d :
  let after := TwoFactorVerify.action isCodeValid userId now formData d in
  let enabled :=
    redirectWithToast "/settings/profile/two-factor" TwoFactorVerify.enabledToast in
  (∃ issues, after = (Ok (json (Reply issues) 400), d))
  ∨ (∃ e, after = (Throw e, d))
  ∨ after = (Ok (redirect "/settings/profile/two-factor"), without_pending userId d)
  ∨ (∃ i row,
      list_find (target_type twoFAVerifyVerificationType userId) (verification d)
        = Some (i, row)
      ∧ ¬ (key_of (<["type" := VStr twoFAVerificationType]> row)
             ∈ key_of <$> delete i (verification d))
      ∧ after = (Ok enabled, marked_enabled i row d)).
Proof.
  intros after enabled. subst after.
  unfold TwoFactorVerify.action, TwoFactorVerify.parseWithZod, with_refinement.
  destruct (TwoFactorVerify.ActionSchema formData) as [[|code]|[|code] issues|issues];
    unfold mbind, prisma_bind, mret, prisma_ret, TwoFactorVerify.refinement; simpl.
  - right. right. by left.
  - destruct (isCodeValid _ _ _ _ _); simpl; [|left; eauto].
    unfold verification_.update, verification_.write_at.
    destruct (list_find _ (verification d)) as [[i row]|] eqn:Hfind;
      [|right; left; eauto].
    rewrite <- insert_union_singleton_l.
    case_decide; [right; left; eauto|]. right. right. right. by exists i, row.
  - left. eauto.
  - destruct (isCodeValid _ _ _ _ _); simpl; left; eauto.
  - left. eauto.
Qed.

Lemma enable_action_cases generated newId now userId d :
  let data := TwoFactorIndex.verificationData generated userId in
  let after := TwoFactorIndex.action generated newId now userId d in
  (∃ e, after = (Throw e, d))
  ∨ (∃ i row,
       list_find (target_type twoFAVerifyVerificationType userId) (verification d)
         = Some (i, row)
       ∧ after = (Ok (redirect "/settings/profile/two-factor/verify"),
                  set_verification (<[i := data ∪ row]> (verification d)) d))
  ∨ (list_find (target_type twoFAVerifyVerificationType userId) (verification d) = None
     ∧ after = (Ok (redirect "/settings/profile/two-factor/verify"),
                set_verification
                  (verification d ++ [data ∪ verification_.defaults newId now]) d)).
Proof.
  intros data after. subst after.
  unfold TwoFactorIndex.action, mbind, prisma_bind, verification_.upsert. fold data.
  destruct (list_find _ (verification d)) as [[i row]|] eqn:Hfind.
  - unfold verification_.write_at. case_decide; [left; eauto|].
    right. left. by exists i, row.
  - unfold verification_.create. case_decide; [left; eauto|].
    right. by right.
Qed.

Lemma pending_row_not_marker userId other (row : object) :
  target_type twoFAVerifyVerificationType userId row →
  ¬ target_type twoFAVerificationType other row.
Proof. intros [Hty _] [Hty' _]. rewrite Hty in Hty'. done. Qed.

Lemma Exists_insert_outside {A} (P : A → Prop) `{!∀ x, Decision (P x)}
    (l : list A) i x y :
  l !! i = Some x → ¬ P x → ¬ P y → Exists P (<[i := y]> l) ↔ Exists P l.
Proof.
  intros Hi Hx Hy. rewrite !Exists_via_filter.
  by rewrite (filter_insert_outside P l i x y).
Qed.

(** X3. Requesting or cancelling an enrolment, or submitting a code that
    is not accepted, never changes what the two-factor page reports for
    any user: the flag [is2FAEnabled] can only change for the user whose
    verify submission is answered with the "Enabled" toast. *)
Theorem two_factor_flag_changes_only_by_verification
    isCodeValid generated newId now userId formData other d :
  let requested := TwoFactorIndex.action generated newId now userId d in
  let submitted := TwoFactorVerify.action isCodeValid userId now formData d in
  let enabled :=
    redirectWithToast "/settings/profile/two-factor" TwoFactorVerify.enabledToast in
  fst (TwoFactorIndex.loader other (snd requested)) = fst (TwoFactorIndex.loader other d)
  ∧ (other ≠ userId ∨ fst submitted ≠ Ok enabled →
     fst (TwoFactorIndex.loader other (snd submitted))
     = fst (TwoFactorIndex.loader other d)).
Proof.
  intros requested submitted enabled. rewrite !loader_2fa_flag. cbn [fst].
  assert (∀ rows, Exists (target_type twoFAVerificationType other) rows ↔
                  Exists (target_type twoFAVerificationType other) (verification d) →
          Ok (json (Is2FAEnabled (bool_decide
                (Exists (target_type twoFAVerificationType other) rows))) 200)
          = Ok (json (Is2FAEnabled (bool_decide
                (Exists (target_type twoFAVerificationType other) (verification d)))) 200))
    as Hflag.
  { intros rows Hiff. do 3 f_equal. by apply bool_decide_ext. }
  assert (target_type twoFAVerifyVerificationType userId
            (TwoFactorIndex.verificationData generated userId)) as Hdata
    by apply verificationData_keyed.
  split.
  - apply Hflag. subst requested.
    destruct (enable_action_cases generated newId now userId d)
      as [[e ->]|[(i & row & Hfind & ->)|[Hnone ->]]]; simpl; [done| |].
    + apply list_find_Some in Hfind as (Hi & Hrow & _).
      apply (Exists_insert_outside _ _ i row); [done|..].
      * by eapply pending_row_not_marker.
      * eapply pending_row_not_marker. by apply target_type_union.
    + rewrite Exists_app. split; [|by left].
      intros [?|Hnew]; [done|]. apply Exists_cons in Hnew as [Hnew|Hnil].
      * exfalso. eapply pending_row_not_marker; [|exact Hnew].
        by apply target_type_union.
      * by apply Exists_nil in Hnil.
  - intros Hcase. apply Hflag. subst submitted.
    destruct (verify_action_cases isCodeValid userId now formData d)
      as [[issues ->]|[[e ->]|[->|(i & row & Hfind & _ & Hrun)]]]; [done|done| |].
    + unfold without_pending; simpl. rewrite Exists_filter_all.
      rewrite !Exists_exists. split.
      * intros (x & Hin & Hx & _). eauto.
      * intros (x & Hin & Hx). exists x. split_and!; [done..|].
        intros Hpending. by eapply pending_row_not_marker.
    + rewrite Hrun in Hcase |- *. simpl in *.
      destruct Hcase as [Hother|Hnot]; [|done].
      apply list_find_Some in Hfind as (Hi & Hrow & _).
      apply (Exists_insert_outside _ _ i row); [done|..].
      * by eapply pending_row_not_marker.
      * intros [_ Htg]. rewrite lookup_insert_ne in Htg by done.
        destruct Hrow as [_ Htg']. rewrite Htg' in Htg. by injection Htg as ->.
Qed.

(** X4. Both two-factor actions keep the store's unique (target, type)
    constraint: from a store that respects it, an enable request and a
    verify or cancel submission, whatever the form and whatever the
    validator answers, lead to a store that respects it. *)
Theorem two_factor_actions_keep_unique_key
    isCodeValid generated newId now userId formData d :
  unique_target_type (verification d) →
  unique_target_type
    (verification (snd (TwoFactorIndex.action generated newId now userId d)))
  ∧ unique_target_type
      (verification (snd (TwoFactorVerify.action isCodeValid userId now formData d))).
Proof.
  intros Hunique. split.
  - destruct (enable_once (mkDraw generated newId now) userId d Hunique)
      as (row & d' & Hrun & Hunique' & _).
    simpl in Hrun. by rewrite Hrun.
  - destruct (verify_action_cases isCodeValid userId now formData d)
      as [[issues ->]|[[e ->]|[->|(i & row & Hfind & Hfresh & ->)]]]; [done|done| |].
    + unfold without_pending, unique_target_type; simpl.
      eapply sublist_NoDup; [exact Hunique|].
      apply fmap_sublist, sublist_filter.
    + unfold marked_enabled, unique_target_type; simpl.
      apply list_find_Some in Hfind as (Hi & _).
      rewrite list_fmap_insert.
      apply (NoDup_insert_fresh _ i (key_of row)); [done| |].
      * by rewrite list_lookup_fmap, Hi.
      * by rewrite <- list_fmap_delete.
Qed.

(** X5. The two-factor actions of one user never touch what belongs to
    anyone else: the verification rows with another target are the same,
    in the same order, after an enable request and after any verify or
    cancel submission, and the session, connection, user and password
    tables are unchanged. *)
Theorem two_factor_actions_leave_others_alone
    isCodeValid generated newId now userId formData d :
  let requested := snd (TwoFactorIndex.action generated newId now userId d) in
  let submitted := snd (TwoFactorVerify.action isCodeValid userId now formData d) in
  rows_of_others userId requested = rows_of_others userId d
  ∧ rows_of_others userId submitted = rows_of_others userId d
  ∧ (session requested, connection requested, user requested, password requested)
    = (session d, connection d, user d, password d)
  ∧ (session submitted, connection submitted, user submitted, password submitted)
    = (session d, connection d, user d, password d).
Proof.
  intros requested submitted.
  assert (∀ row : object, target_type twoFAVerifyVerificationType userId row →
            ¬ row !! "target" ≠ Some (VStr userId)) as Hown.
  { intros row [_ Htg] Hne. done. }
  assert (∀ row : object, target_type twoFAVerificationType userId row →
            ¬ row !! "target" ≠ Some (VStr userId)) as Hown'.
  { intros row [_ Htg] Hne. done. }
  assert (rows_of_others userId requested = rows_of_others userId d
          ∧ (session requested, connection requested, user requested, password requested)
            = (session d, connection d, user d, password d)) as [Hreq Hreq'].
  { subst requested. unfold rows_of_others.
    destruct (enable_action_cases generated newId now userId d)
      as [[e ->]|[(i & row & Hfind & ->)|[Hnone ->]]]; simpl; [done| |].
    - apply list_find_Some in Hfind as (Hi & Hrow & _). split; [|done].
      apply (filter_insert_outside _ _ i row); [done|by apply Hown|].
      apply Hown, target_type_union, verificationData_keyed.
    - split; [|done]. rewrite filter_app, filter_cons_False, filter_nil.
      + by rewrite app_nil_r.
      + apply Hown, target_type_union, verificationData_keyed. }
  assert (rows_of_others userId submitted = rows_of_others userId d
          ∧ (session submitted, connection submitted, user submitted, password submitted)
            = (session d, connection d, user d, password d)) as [Hsub Hsub'].
  { subst submitted. unfold rows_of_others.
    destruct (verify_action_cases isCodeValid userId now formData d)
      as [[issues ->]|[[e ->]|[->|(i & row & Hfind & _ & ->)]]]; [done|done| |].
    - unfold without_pending; simpl. split; [|done].
      apply filter_filter_implied. intros row Hne Hpending. by apply (Hown row).
    - unfold marked_enabled; simpl. split; [|done].
      apply list_find_Some in Hfind as (Hi & Hrow & _).
      apply (filter_insert_outside _ _ i row); [done|by apply Hown|].
      eapply Hown', target_type_insert_type, Hrow. }
  done.
Qed.

(** X6. Completing an enrolment while two-factor authentication is
    already enabled fails: when the user has both the "2fa" marker and a
    pending "2fa-verify" record, a verify submission with an accepted
    six-character code runs into the store's unique (target, type)
    constraint, and the database is left exactly as it was. *)
Theorem verify_when_already_enabled_hits_unique_key
    isCodeValid userId now code d i row marker :
  list_find (target_type twoFAVerifyVerificationType userId) (verification d)
    = Some (i, row) →
  lookup_verification twoFAVerificationType userId d = Some marker →
  String.length code = 6%nat →
  isCodeValid code twoFAVerifyVerificationType userId now (verification d) = true →
  TwoFactorVerify.action isCodeValid userId now (TwoFactorVerify.verifyForm code) d
  = (Throw P2002, d).
Proof.
  intros Hfind Hmarker Hlen Hvalid.
  rewrite (action_verify_valid isCodeValid userId now code d Hlen Hvalid).
  unfold mbind, prisma_bind, verification_.update, verification_.write_at.
  rewrite Hfind. rewrite <- insert_union_singleton_l.
  rewrite decide_True; [done|].
  unfold lookup_verification in Hmarker.
  destruct (list_find (target_type twoFAVerificationType userId) (verification d))
    as [[j marker']|] eqn:Hj; [|done].
  injection Hmarker as ->.
  apply list_find_Some in Hj as (Hj & Hmark & _).
  apply list_find_Some in Hfind as (Hi & Hrow & _).
  assert (j ≠ i) as Hne.
  { intros ->. rewrite Hi in Hj. injection Hj as ->.
    by eapply pending_row_not_marker. }
  apply list_elem_of_fmap. exists marker. split.
  - pose proof (target_type_insert_type _ twoFAVerificationType _ _ Hrow) as Hnew.
    apply key_of_target_type in Hnew, Hmark. congruence.
  - apply list_elem_of_lookup.
    destruct (decide (j < i)%nat).
    + exists j. by rewrite list_lookup_delete_lt.
    + exists (pred j). rewrite list_lookup_delete_ge by lia.
      replace (S (pred j)) with j by lia. done.
Qed.

(** ** The verify page *)

(** Membership of a field name in an explicit list of names. *)
Ltac list_membership :=
  rewrite ?elem_of_cons, ?elem_of_nil; intuition (discriminate || congruence).

Lemma select_lookup (columns : list string) (row : object) (k : string) :
  select columns row !! k = if decide (k ∈ columns) then row !! k else None.
Proof.
  unfold select. case_decide as Hk.
  - destruct (row !! k) as [x|] eqn:Hrow.
    + by apply map_lookup_filter_Some.
    + apply map_lookup_filter_None. by left.
  - apply map_lookup_filter_None. right. intros x _. done.
Qed.

Section verify_page.
Variable getTOTPAuthUri : object → string.
Variable toDataURL : string → string.

Lemma page_without_pending host userId d :
  lookup_verification twoFAVerifyVerificationType userId d = None →
  VerifyPage.loader getTOTPAuthUri toDataURL host userId d
  = (Ok (answered (redirect "/settings/profile/two-factor")), d).
Proof.
  unfold lookup_verification. intros Hnone.
  unfold VerifyPage.loader, verification_.findUnique, mbind, prisma_bind, mret, prisma_ret.
  by rewrite Hnone.
Qed.

Lemma page_with_pending host userId d row :
  lookup_verification twoFAVerifyVerificationType userId d = Some row →
  VerifyPage.loader getTOTPAuthUri toDataURL host userId d
  = match list_find (λ u, user_id u = userId) (user d) with
    | Some (_, account) =>
        let otpUri := getTOTPAuthUri (uri_arguments host account row) in
        (Ok (payload (VerifyPage.mkQr otpUri (toDataURL otpUri))), d)
    | None => (Throw P2025, d)
    end.
Proof.
  unfold lookup_verification. intros Hrow.
  unfold VerifyPage.loader, verification_.findUnique, mbind, prisma_bind, mret, prisma_ret.
  rewrite Hrow. simpl. unfold user_findUniqueOrThrow.
  by destruct (list_find _ (user d)) as [[? ?]|].
Qed.

(** X2. The verify page is shown only while an enrolment is pending and
    never writes to the database: it answers with the redirect to the
    two-factor page exactly when the user has no "2fa-verify" record, so
    it redirects after a cancel submission and, on a store that respects
    the unique key, after a verify submission answered with "Enabled". *)
Theorem verify_page_needs_pending_enrolment isCodeValid host userId now formData d :
  let page := VerifyPage.loader getTOTPAuthUri toDataURL host userId in
  let back := Ok (answered (redirect "/settings/profile/two-factor")) in
  let submitted := TwoFactorVerify.action isCodeValid userId now formData d in
  snd (page d) = d
  ∧ (fst (page d) = back ↔
     lookup_verification twoFAVerifyVerificationType userId d = None)
  ∧ (fst submitted = Ok (redirect "/settings/profile/two-factor") →
     page (snd submitted) = (back, snd submitted))
  ∧ (unique_target_type (verification d) →
     fst submitted
     = Ok (redirectWithToast "/settings/profile/two-factor" TwoFactorVerify.enabledToast) →
     page (snd submitted) = (back, snd submitted)).
Proof.
  intros page back submitted. subst page back.
  assert (∀ d', lookup_verification twoFAVerifyVerificationType userId d' = None →
            VerifyPage.loader getTOTPAuthUri toDataURL host userId d'
            = (Ok (answered (redirect "/settings/profile/two-factor")), d')) as Hback
    by (intros; by apply page_without_pending).
  split_and!.
  - destruct (lookup_verification twoFAVerifyVerificationType userId d) as [row|] eqn:E.
    + rewrite (page_with_pending host userId d row E).
      by destruct (list_find _ (user d)) as [[? ?]|].
    + by rewrite Hback.
  - split.
    + intros Hfst.
      destruct (lookup_verification twoFAVerifyVerificationType userId d) as [row|] eqn:E;
        [|done].
      rewrite (page_with_pending host userId d row E) in Hfst.
      by destruct (list_find _ (user d)) as [[? ?]|].
    + intros Hnone. by rewrite Hback.
  - intros Hfst. apply Hback. subst submitted.
    destruct (verify_action_cases isCodeValid userId now formData d)
      as [[issues Hrun]|[[e Hrun]|[->|(i & row & Hfind & _ & Hrun)]]];
      [by rewrite Hrun in Hfst..| |by rewrite Hrun in Hfst].
    unfold lookup_verification, without_pending; simpl.
    by rewrite list_find_filter_out.
  - intros Hunique Hfst. apply Hback. subst submitted.
    destruct (verify_action_cases isCodeValid userId now formData d)
      as [[issues Hrun]|[[e Hrun]|[Hrun|(i & row & Hfind & _ & ->)]]];
      [by rewrite Hrun in Hfst..|].
    unfold lookup_verification, marked_enabled; simpl.
    rewrite (list_find_insert_unique _ _ _ i row); [done..|].
    intros [Hty _]. by rewrite lookup_insert_eq in Hty.
Qed.


(** X1. Requesting an enrolment and then opening the verify page is a
    round trip for the generated configuration: on a store that respects
    the unique key, for a user that exists, the page answers with the QR
    data whose URI is computed from the secret, algorithm, period and
    digits the generator just drew, the user's e-mail address as account
    name and the request's host as issuer; the one-time code, the type,
    the target and the character set are not passed on. *)
Theorem enable_then_verify_page_shows_drawn_secret
    (g : generated) newId now host userId account j d :
  unique_target_type (verification d) →
  list_find (λ u, user_id u = userId) (user d) = Some (j, account) →
  let d' := snd (TwoFactorIndex.action (generated_object g) newId now userId d) in
  ∃ args,
    VerifyPage.loader getTOTPAuthUri toDataURL host userId d'
    = (Ok (payload (VerifyPage.mkQr (getTOTPAuthUri args)
                      (toDataURL (getTOTPAuthUri args)))), d')
    ∧ args !! "secret" = Some (VStr (secret g))
    ∧ args !! "algorithm" = Some (VStr (algorithm g))
    ∧ args !! "period" = Some (VNum (period g))
    ∧ args !! "digits" = Some (VNum (digits g))
    ∧ args !! "accountName" = Some (VStr (user_email account))
    ∧ args !! "issuer" = Some (VStr host)
    ∧ ∀ k, k ∉ ["id"; "algorithm"; "secret"; "period"; "digits";
                "accountName"; "issuer"] →
           args !! k = None.
Proof.
  intros Hunique Haccount d'.
  destruct (upsert_keyed twoFAVerifyVerificationType userId
              (TwoFactorIndex.verificationData (generated_object g) userId)
              newId now d Hunique (verificationData_keyed _ _))
    as (row & rows' & Hrun & _ & Hone & Hsub).
  assert (d' = set_verification rows' d) as Hd'.
  { subst d'. unfold TwoFactorIndex.action, mbind, prisma_bind. by rewrite Hrun. }
  apply filter_singleton_find in Hone as [i Hfind].
  assert (lookup_verification twoFAVerifyVerificationType userId d' = Some row) as Hrow.
  { rewrite Hd'. unfold lookup_verification. simpl. by rewrite Hfind. }
  exists (uri_arguments host account row).
  rewrite (page_with_pending host userId d' row Hrow).
  replace (user d') with (user d) by (by rewrite Hd').
  rewrite Haccount. cbn zeta.
  assert (∀ k v, k ∈ ["id"; "algorithm"; "secret"; "period"; "digits"] →
            TwoFactorIndex.verificationData (generated_object g) userId !! k = Some v →
            uri_arguments host account row !! k = Some v) as Hfield.
  { intros k v Hk Hv. unfold uri_arguments.
    rewrite !lookup_insert_ne by (intros <-; revert Hk; list_membership).
    rewrite select_lookup, decide_True by done.
    by eapply lookup_weaken. }
  split_and!; [done|apply Hfield; [list_membership|done]..| | |].
  - unfold uri_arguments. rewrite lookup_insert_ne by done. by rewrite lookup_insert_eq.
  - unfold uri_arguments. by rewrite lookup_insert_eq.
  - intros k Hk. unfold uri_arguments.
    rewrite !lookup_insert_ne by (intros <-; revert Hk; list_membership).
    rewrite select_lookup, decide_False; [done|]. revert Hk. list_membership.
Qed.

End verify_page.

(** ** Sessions and the profile page *)

(** X7. Signing out of the other sessions is idempotent: a second run
    with the same cookie answers the same and leaves the database of the
    first run unchanged; and after a run every session the user still has
    is the one named in the cookie. *)
Theorem sign_out_twice_is_sign_out_once current userId d :
  current ≠ "" →
  let once := Profile.signOutOfSessionsAction (Some current) userId d in
  Profile.signOutOfSessionsAction (Some current) userId (snd once) = once
  ∧ ∀ s, s ∈ session (snd once) → session_userId s = userId → session_id s = current.
Proof.
  intros Hcurrent once. subst once.
  rewrite !(signOut_truthy current userId _ Hcurrent). cbn [snd]. split.
  - f_equal. unfold set_session; simpl. by rewrite filter_twice.
  - intros s Hs Hown. simpl in Hs. apply list_elem_of_filter in Hs as [Hkeep _].
    destruct (decide (session_id s = current)) as [|Hne]; [done|].
    destruct Hkeep. split; [done|]. congruence.
Qed.

Lemma filter_key_at_most_one {A B} `{EqDecision B} (f : A → B) (k : B)
    (Q : A → Prop) `{!∀ x, Decision (Q x)} (l : list A) :
  NoDup (f <$> l) →
  (length (filter (λ x, f x = k ∧ Q x) l) ≤ 1)%nat.
Proof.
  induction l as [|a l IH]; intros Hnodup; [simpl; lia|].
  rewrite fmap_cons in Hnodup. apply NoDup_cons in Hnodup as [Ha Hnodup].
  destruct (decide (f a = k ∧ Q a)) as [[Hk Hq]|Hno].
  - rewrite filter_cons_True by done.
    destruct (filter (λ x, f x = k ∧ Q x) l) as [|x ?] eqn:E; [simpl; lia|].
    assert (x ∈ filter (λ x, f x = k ∧ Q x) l) as Hx by (rewrite E; left).
    apply list_elem_of_filter in Hx as [[Hxk _] Hin].
    destruct Ha. apply list_elem_of_fmap. exists x. split; [congruence|done].
  - rewrite filter_cons_False by done. by apply IH.
Qed.

Section profile_page.
Variable user_name : User → option string.
Variable user_image : User → option string.

Lemma profile_loader_found now userId d j account :
  list_find (λ u, user_id u = userId) (user d) = Some (j, account) →
  ProfilePage.loader user_name user_image now userId d
  = (Ok (ProfilePage.mkData (user_id account) (user_name account)
           (user_username account) (user_email account) (user_image account)
           (length (filter (λ s, session_userId s = userId
                                 ∧ now < session_expirationDate s) (session d)))
           (Boolean (snd <$> list_find (λ p, password_userId p = userId) (password d)))
           (Boolean (snd <$> list_find (target_type twoFAVerificationType userId)
                                       (verification d)))), d).
Proof.
  intros Hfind.
  unfold ProfilePage.loader, user_findUniqueOrThrow, verification_.findUnique,
    password_findUnique, mbind, prisma_bind, mret, prisma_ret.
  by rewrite Hfind.
Qed.

Lemma Boolean_find {A} (P : A → Prop) `{!∀ x, Decision (P x)} (l : list A) :
  Boolean (snd <$> list_find P l) = bool_decide (Exists P l).
Proof.
  destruct (list_find P l) as [[i x]|] eqn:Hfind; simpl.
  - apply list_find_Some in Hfind as (Hi & Hx & _).
    symmetry. apply bool_decide_eq_true, Exists_exists. exists x.
    split; [|done]. apply list_elem_of_lookup. by exists i.
  - apply list_find_None in Hfind. symmetry. apply bool_decide_eq_false.
    intros Hex. apply Exists_exists in Hex as (x & Hin & Hx).
    rewrite Forall_forall in Hfind. by apply (Hfind x).
Qed.

(** X8. The profile page agrees with the pages behind its links: for a
    user that exists its [isTwoFactorEnabled] flag is the [is2FAEnabled]
    flag of the two-factor page, its [hasPassword] flag holds exactly
    when the user has a password row, and whenever it holds the
    connections page lets the user delete connections. For a user that
    does not exist the loader throws the store's not-found error. The
    loader never writes. *)
Theorem profile_page_flags_agree now userId d :
  snd (ProfilePage.loader user_name user_image now userId d) = d
  ∧ (list_find (λ u, user_id u = userId) (user d) = None →
     fst (ProfilePage.loader user_name user_image now userId d) = Throw P2025)
  ∧ (∀ j account,
       list_find (λ u, user_id u = userId) (user d) = Some (j, account) →
       ∃ data,
         fst (ProfilePage.loader user_name user_image now userId d) = Ok data
         ∧ ProfilePage.data_email data = user_email account
         ∧ fst (TwoFactorIndex.loader userId d)
           = Ok (json (Is2FAEnabled (ProfilePage.isTwoFactorEnabled data)) 200)
         ∧ (ProfilePage.hasPassword data = true ↔ has_password userId d)
         ∧ (ProfilePage.hasPassword data = true →
            Connections.userCanDeleteConnections userId d = (Ok true, d))).
Proof.
  split_and!.
  - unfold ProfilePage.loader, user_findUniqueOrThrow, verification_.findUnique,
      password_findUnique, mbind, prisma_bind, mret, prisma_ret.
    by destruct (list_find _ (user d)) as [[? ?]|].
  - intros Hnone.
    unfold ProfilePage.loader, user_findUniqueOrThrow, mbind, prisma_bind.
    by rewrite Hnone.
  - intros j account Hfind. eexists.
    rewrite (profile_loader_found now userId d j account Hfind). cbn [fst].
    split_and!; [done|done| | |]; cbn [ProfilePage.isTwoFactorEnabled ProfilePage.hasPassword].
    + rewrite loader_2fa_flag. cbn [fst]. by rewrite Boolean_find.
    + rewrite Boolean_find. apply bool_decide_eq_true.
    + rewrite Boolean_find. intros Hpw. apply bool_decide_eq_true in Hpw.
      destruct (userCanDeleteConnections_spec userId d) as (allowed & Hrun & _ & Hwhen).
      rewrite Hrun. f_equal. f_equal. apply Hwhen; [|by left].
      apply list_find_Some in Hfind as (Hj & Hid & _).
      apply Exists_exists. exists account. split; [|done].
      apply list_elem_of_lookup. by exists j.
Qed.

(** X9. After signing out of the other sessions the profile page counts
    at most one session: on a session table with distinct ids, for a user
    that exists, the count of unexpired sessions the page reports after
    the action is at most 1, so [otherSessionsCount] is at most 0; it is
    exactly 1 when the cookie's session is an unexpired session of the
    user. *)
Theorem profile_page_after_sign_out now current userId d j account :
  NoDup (session_id <$> session d) →
  current ≠ "" →
  list_find (λ u, user_id u = userId) (user d) = Some (j, account) →
  let d' := snd (Profile.signOutOfSessionsAction (Some current) userId d) in
  ∃ data,
    ProfilePage.loader user_name user_image now userId d' = (Ok data, d')
    ∧ (ProfilePage.data_count_sessions data ≤ 1)%nat
    ∧ ProfilePage.otherSessionsCount data ≤ 0
    ∧ (Exists (λ s, session_id s = current ∧ session_userId s = userId
                    ∧ now < session_expirationDate s) (session d) →
       ProfilePage.data_count_sessions data = 1%nat
       ∧ ProfilePage.otherSessionsCount data = 0).
Proof.
  intros Hnodup Hcurrent Hfind d'. subst d'.
  rewrite (signOut_truthy current userId d Hcurrent). cbn [snd].
  eexists. rewrite (profile_loader_found now userId _ j account) by done.
  split; [done|]. cbn [ProfilePage.data_count_sessions]. simpl session.
  assert (filter (λ s, session_userId s = userId ∧ now < session_expirationDate s)
            (filter (λ s, ¬ (session_userId s = userId
                             ∧ Some (session_id s) ≠ Some current)) (session d))
          = filter (λ s, session_id s = current
                         ∧ (session_userId s = userId ∧ now < session_expirationDate s))
              (session d)) as ->.
  { rewrite list_filter_filter. apply list_filter_iff. intros s. split.
    - intros [[Hown Hlive] Hkeep]. split; [|done].
      destruct (decide (session_id s = current)) as [|Hne]; [done|].
      destruct Hkeep. split; [done|]. congruence.
    - intros [Hid [Hown Hlive]]. split; [done|]. intros [_ Hne]. congruence. }
  pose proof (filter_key_at_most_one session_id current
                (λ s, session_userId s = userId ∧ now < session_expirationDate s)
                (session d) Hnodup) as Hle.
  unfold ProfilePage.otherSessionsCount. cbn [ProfilePage.data_count_sessions].
  split_and!; [done|lia|].
  intros Hex.
  assert (filter (λ s, session_id s = current
                       ∧ (session_userId s = userId ∧ now < session_expirationDate s))
            (session d) ≠ []) as Hne.
  { apply Exists_via_filter. eapply Exists_impl; [exact Hex|]. naive_solver. }
  destruct (filter _ (session d)) as [|x [|y rest]]; [done| |simpl in Hle; lia].
  by simpl.
Qed.

End profile_page.

(** ** The connections page and the delete action *)

Lemma delete_connection_cases userId formData d :
  let after := Connections.action userId formData d in
  (∃ e, after = (Throw e, d))
  ∨ (∃ connectionId i row,
       formData !! "connectionId" = Some connectionId
       ∧ (has_password userId d ∨ (1 < connection_count userId d)%nat)
       ∧ list_find (λ c, connection_id c = connectionId ∧ connection_userId c = userId)
                   (connection d) = Some (i, row)
       ∧ after = (Ok (json StatusSuccess 200),
                  set_connection (delete i (connection d)) d)).
Proof.
  intros after. subst after.
  destruct (userCanDeleteConnections_spec userId d) as (allowed & Hcan & Honly & _).
  unfold Connections.action, invariantResponse.
  destruct (bool_decide (formData !! "intent" = Some "delete-connection"));
    [|left; eauto].
  unfold mbind, prisma_bind, mret, prisma_ret. rewrite Hcan.
  destruct allowed; simpl; [|left; eauto].
  destruct (formData !! "connectionId") as [connectionId|] eqn:Hid; [|left; eauto].
  unfold connection_.delete.
  destruct (list_find _ (connection d)) as [[i row]|] eqn:Hfind; [|left; eauto].
  right. exists connectionId, i, row. split_and!; [done|by apply Honly|done|done].
Qed.

(** X12. Deleting a connection can never lock a user out: when the action
    answers with success the user owns exactly one connection fewer than
    before, the password table is untouched, and a user without a
    password still owns at least one connection afterwards. *)
Theorem delete_connection_keeps_a_way_in userId formData d answer :
  let after := Connections.action userId formData d in
  fst after = Ok answer →
  S (connection_count userId (snd after)) = connection_count userId d
  ∧ password (snd after) = password d
  ∧ (¬ has_password userId (snd after) →
     (1 ≤ connection_count userId (snd after))%nat).
Proof.
  intros after Hok. subst after.
  destruct (delete_connection_cases userId formData d)
    as [[e Hrun]|(cid & i & row & _ & Hguard & Hfind & Hrun)];
    rewrite Hrun in Hok |- *; [done|]. cbn [fst snd] in *.
  apply list_find_Some in Hfind as (Hi & [_ Hown] & _).
  assert (S (connection_count userId (set_connection (delete i (connection d)) d))
          = connection_count userId d) as Hcount.
  { unfold connection_count; simpl.
    by apply (filter_delete_inside (λ c, connection_userId c = userId) _ i row). }
  split_and!; [done|done|].
  intros Hnopw. destruct Hguard as [Hpw|Hmany]; [done|]. lia.
Qed.

(** X13. The delete action of one user leaves every other user's
    connections as they are, in the same order, and changes no other
    table; posting the id of a connection the user does not own deletes
    nothing and ends in a thrown error. *)
Theorem delete_connection_leaves_others_alone userId formData d :
  let after := Connections.action userId formData d in
  connections_of_others userId (snd after) = connections_of_others userId d
  ∧ (verification (snd after), session (snd after), user (snd after), password (snd after))
    = (verification d, session d, user d, password d)
  ∧ (∀ connectionId,
       formData !! "connectionId" = Some connectionId →
       Forall (λ c, ¬ (connection_id c = connectionId ∧ connection_userId c = userId))
              (connection d) →
       (∃ e, fst after = Throw e) ∧ snd after = d).
Proof.
  intros after. subst after.
  destruct (delete_connection_cases userId formData d)
    as [[e Hrun]|(cid & i & row & Hid & _ & Hfind & Hrun)]; rewrite Hrun; cbn [fst snd].
  - split_and!; [done|done|]. intros. split; [eauto|done].
  - pose proof Hfind as Hfind'.
    apply list_find_Some in Hfind as (Hi & [Hrowid Hown] & _).
    split_and!.
    + unfold connections_of_others; simpl.
      apply (filter_delete_outside _ _ i row); [done|]. intros Hne. done.
    + done.
    + intros connectionId Hid' Hnone. exfalso.
      rewrite Hid in Hid'. injection Hid' as ->.
      rewrite Forall_forall in Hnone. apply (Hnone row); [|done].
      apply list_elem_of_lookup. by exists i.
Qed.

Lemma action_with_intent userId formData d allowed :
  formData !! "intent" = Some "delete-connection" →
  Connections.userCanDeleteConnections userId d = (Ok allowed, d) →
  Connections.action userId formData d
  = if allowed
    then match formData !! "connectionId" with
         | None => (Throw (ThrownResponse 400 "Invalid connectionId"), d)
         | Some connectionId =>
             match list_find (λ c, connection_id c = connectionId
                                   ∧ connection_userId c = userId) (connection d) with
             | None => (Throw P2025, d)
             | Some (i, _) =>
                 (Ok (json StatusSuccess 200), set_connection (delete i (connection d)) d)
             end
         end
    else (Throw (ThrownResponse 400
            "You cannot delete your last connection unless you have a password."), d).
Proof.
  intros Hintent Hcan. unfold Connections.action, invariantResponse.
  rewrite bool_decide_true by done.
  unfold mbind, prisma_bind, mret, prisma_ret. rewrite Hcan.
  destruct allowed; simpl; [|done].
  destruct (formData !! "connectionId"); [|done].
  unfold connection_.delete. by destruct (list_find _ (connection d)) as [[? ?]|].
Qed.

Section connections_page.
Variable providerNames : list string.
Variable resolveConnectionData : string → string → string * option string.
Variable toLocaleString : Z → string.

Abbreviation collect :=
  (ConnectionsPage.collect providerNames resolveConnectionData toLocaleString).
Abbreviation page :=
  (ConnectionsPage.loader providerNames resolveConnectionData toLocaleString).

Lemma collect_ids (raw : list Connection) :
  ConnectionsPage.listed_id <$> collect raw
  = connection_id <$> filter (λ c, connection_providerName c ∈ providerNames) raw.
Proof.
  induction raw as [|c raw IH]; [done|].
  cbn [ConnectionsPage.collect]. case_decide.
  - rewrite filter_cons_True by done. rewrite !fmap_cons.
    cbn [ConnectionsPage.listed_id]. by rewrite IH.
  - by rewrite filter_cons_False.
Qed.

Lemma collect_elem (raw : list Connection) item :
  item ∈ collect raw →
  ∃ c, c ∈ raw
       ∧ connection_providerName c ∈ providerNames
       ∧ item = ConnectionsPage.mkListed (connection_providerName c) (connection_id c)
                  (fst (resolveConnectionData (connection_providerName c)
                          (connection_providerId c)))
                  (snd (resolveConnectionData (connection_providerName c)
                          (connection_providerId c)))
                  (toLocaleString (connection_createdAt c)).
Proof.
  induction raw as [|c raw IH]; simpl; [by intros ?%elem_of_nil|].
  case_decide as Hknown.
  - intros [->|Hin]%elem_of_cons.
    + exists c. split_and!; [left|done|done].
    + destruct (IH Hin) as (c' & ? & ? & ?). exists c'. split_and!; [by right|done..].
  - intros Hin. destruct (IH Hin) as (c' & ? & ? & ?).
    exists c'. split_and!; [by right|done..].
Qed.

Lemma page_run userId d :
  ∃ allowed,
    page userId d
    = (Ok (collect (filter (λ c, connection_userId c = userId) (connection d)), allowed), d)
    ∧ Connections.userCanDeleteConnections userId d = (Ok allowed, d).
Proof.
  destruct (userCanDeleteConnections_spec userId d) as (allowed & Hcan & _).
  exists allowed. split; [|done].
  unfold ConnectionsPage.loader, mbind, prisma_bind, mret, prisma_ret.
  by rewrite Hcan.
Qed.

(** X10. The connections page lists the user's own connections and no
    one else's: the ids it shows are, in table order, the ids of the rows
    owned by the user whose provider is a known one; every listed entry
    comes from such a row, with that row's provider and the display name
    and link resolved for it; and the loader never writes. *)
Theorem connections_page_lists_own_connections userId d :
  snd (page userId d) = d
  ∧ ∃ listing allowed,
      fst (page userId d) = Ok (listing, allowed)
      ∧ ConnectionsPage.listed_id <$> listing
        = connection_id <$>
            filter (λ c, connection_userId c = userId
                         ∧ connection_providerName c ∈ providerNames) (connection d)
      ∧ (length listing ≤ connection_count userId d)%nat
      ∧ ∀ item, item ∈ listing →
          ∃ c, c ∈ connection d
               ∧ connection_userId c = userId
               ∧ connection_id c = ConnectionsPage.listed_id item
               ∧ connection_providerName c = ConnectionsPage.listed_providerName item
               ∧ ConnectionsPage.listed_providerName item ∈ providerNames
               ∧ resolveConnectionData (connection_providerName c) (connection_providerId c)
                 = (ConnectionsPage.listed_displayName item,
                    ConnectionsPage.listed_link item).
Proof.
  destruct (page_run userId d) as (allowed & Hrun & _). rewrite Hrun. cbn [fst snd].
  split; [done|]. eexists _, allowed. split_and!; [done| | |].
  - rewrite collect_ids, list_filter_filter. f_equal.
    apply list_filter_iff. intros c. tauto.
  - rewrite <- (length_fmap ConnectionsPage.listed_id), collect_ids, length_fmap.
    apply length_filter.
  - intros item Hin. apply collect_elem in Hin as (c & Hc & Hknown & ->).
    apply list_elem_of_filter in Hc as [Hown Hc]. exists c. simpl.
    split_and!; [done..|]. by destruct (resolveConnectionData _ _).
Qed.

(** X11. The delete button of the connections page and the guard of the
    delete action agree: when the page reports [canDeleteConnections]
    false, every delete-connection form is rejected with the 400 "You
    cannot delete your last connection unless you have a password." and
    nothing changes; when it reports true, posting the id of any listed
    connection succeeds and removes one row, which has that id and
    belongs to the user. *)
Theorem connections_page_flag_matches_guard userId formData d listing allowed :
  fst (page userId d) = Ok (listing, allowed) →
  formData !! "intent" = Some "delete-connection" →
  let after := Connections.action userId formData d in
  (allowed = false →
   after = (Throw (ThrownResponse 400
              "You cannot delete your last connection unless you have a password."), d))
  ∧ (allowed = true →
     ∀ item, item ∈ listing →
       formData !! "connectionId" = Some (ConnectionsPage.listed_id item) →
       ∃ i row,
         connection d !! i = Some row
         ∧ connection_id row = ConnectionsPage.listed_id item
         ∧ connection_userId row = userId
         ∧ after = (Ok (json StatusSuccess 200),
                    set_connection (delete i (connection d)) d)).
Proof.
  intros Hpage Hintent after.
  destruct (page_run userId d) as (allowed' & Hrun & Hcan).
  rewrite Hrun in Hpage. injection Hpage as <- <-.
  subst after. rewrite (action_with_intent userId formData d allowed' Hintent Hcan).
  split.
  - by intros ->.
  - intros -> item Hin Hid.
    apply collect_elem in Hin as (c & Hc & _ & ->). simpl in Hid.
    apply list_elem_of_filter in Hc as [Hown Hc]. rewrite Hid.
    destruct (list_find (λ c', connection_id c' = connection_id c
                               ∧ connection_userId c' = userId) (connection d))
      as [[i row]|] eqn:Hfind.
    + exists i, row.
      apply list_find_Some in Hfind as (Hi & [Hrowid Hrowown] & _).
      by split_and!.
    + apply list_find_None in Hfind. rewrite Forall_forall in Hfind.
      by destruct (Hfind c Hc).
Qed.

End connections_page.

(** ** The change-email request: rejected forms *)

(** X14. A change-email request that is answered with status 400 has
    prepared nothing: the database is unchanged, whatever the generator
    and the mailer would have done. That is the answer, with the issue
    "This email is already in use." on the e-mail field, whenever the
    requested address already belongs to a user. *)
Theorem change_email_rejection_prepares_nothing
    hmac algorithm digits charSet EmailSchema sendEmail redirectTo
    userId random newId now formData d :
  let after :=
    ChangeEmail.action hmac algorithm digits charSet EmailSchema sendEmail redirectTo
      userId random newId now formData d in
  (∀ reply, fst after = Ok (json reply 400) → snd after = d)
  ∧ (∀ email j taken,
       ChangeEmail.ChangeEmailSchema EmailSchema formData = Valid email →
       list_find (λ u, user_email u = email) (user d) = Some (j, taken) →
       after = (Ok (json (Reply [CustomIssue "email" "This email is already in use."]) 400),
                d)).
Proof.
  intros after. subst after. split.
  - intros reply.
    unfold ChangeEmail.action, with_refinement.
    destruct (ChangeEmail.ChangeEmailSchema EmailSchema formData) as [email|email issues|issues];
      unfold mbind, prisma_bind, mret, prisma_ret, ChangeEmail.refinement; simpl;
      [|done|done].
    destruct (list_find _ (user d)) as [[? ?]|]; [done|].
    destruct (Code.prepareVerification _ _ _ _ _ _ _ _ _ _ d) as [[code|e] d'];
      [|done].
    by destruct (sendEmail email code).
  - intros email j taken Hschema Htaken.
    unfold ChangeEmail.action, with_refinement. rewrite Hschema.
    unfold mbind, prisma_bind, mret, prisma_ret, ChangeEmail.refinement.
    by rewrite Htaken.
Qed.

(** ** The description of a note page *)

(** X15. The description tag of a note page never exceeds 100 code
    units: content longer than 100 units is cut to its first 97 units
    followed by "...", which makes exactly 100; any content of at most
    100 units, empty or not, and a missing note give "No content". *)
Theorem note_description_is_bounded data username matches :
  let description := snd (NotePage.meta data username matches) in
  (length description ≤ 100)%nat
  ∧ (∀ n, data = Some n → (100 < length (NotePage.note_content n))%nat →
       length description = 100%nat
       ∧ description = take 97 (NotePage.note_content n) ++ NotePage.units "...")
  ∧ (∀ n, data = Some n → (length (NotePage.note_content n) ≤ 100)%nat →
       description = NotePage.units "No content")
  ∧ (data = None → description = NotePage.units "No content").
Proof.
  intros description. subst description. unfold NotePage.meta. cbn [snd].
  assert (∀ content : list N, (100 < length content)%nat →
            length (take 97 content ++ NotePage.units "...") = 100%nat) as Hcut.
  { intros content Hlong. rewrite length_app, length_take_le by lia. reflexivity. }
  split_and!.
  - destruct data as [n|]; [|vm_compute; lia].
    case_decide; [rewrite Hcut by done; lia|vm_compute; lia].
  - intros n -> Hlong. rewrite decide_True by done. split; [by apply Hcut|done].
  - intros n -> Hshort. rewrite decide_False by lia. done.
  - by intros ->.
Qed.

(** ** Composing the actions *)

(** X16. Requesting an enrolment and then cancelling it leaves no trace:
    on a store that respects the unique key, an enable request followed
    by a cancel submission ends in the database that the cancel alone
    would give, which is the original database when the user had no
    pending enrolment before. *)
Theorem enable_then_cancel_is_cancel isCodeValid generated newId now now' userId d :
  unique_target_type (verification d) →
  let requested := snd (TwoFactorIndex.action generated newId now userId d) in
  let cancelled :=
    snd (TwoFactorVerify.action isCodeValid userId now' TwoFactorVerify.cancelForm
           requested) in
  cancelled
  = snd (TwoFactorVerify.action isCodeValid userId now' TwoFactorVerify.cancelForm d)
  ∧ (lookup_verification twoFAVerifyVerificationType userId d = None → cancelled = d).
Proof.
  intros Hunique requested cancelled. subst cancelled.
  rewrite !action_cancel. cbn [snd].
  assert (without_pending userId requested = without_pending userId d) as Hsame.
  { subst requested.
    destruct (enable_once (mkDraw generated newId now) userId d Hunique)
      as (stored & d' & Hrun & _). simpl in Hrun.
    destruct (enable_action_cases generated newId now userId d)
      as [[e Hthrow]|[(i & row & Hfind & ->)|[Hnone ->]]].
    - rewrite Hrun in Hthrow. done.
    - unfold without_pending, set_verification; simpl. f_equal.
      apply list_find_Some in Hfind as (Hi & Hrow & _).
      apply (filter_insert_outside _ _ i row); [done|tauto|].
      intros Hno. apply Hno, target_type_union, verificationData_keyed.
    - unfold without_pending, set_verification; simpl. f_equal.
      rewrite filter_app, filter_cons_False, filter_nil; [by rewrite app_nil_r|].
      intros Hno. apply Hno, target_type_union, verificationData_keyed. }
  split; [done|].
  intros Hnone. rewrite Hsame. by apply without_pending_absent.
Qed.

Section after_delete.
Variable providerNames : list string.
Variable resolveConnectionData : string → string → string * option string.
Variable toLocaleString : Z → string.

Abbreviation listing_of d userId :=
  (ConnectionsPage.collect providerNames resolveConnectionData toLocaleString
     (filter (λ c, connection_userId c = userId) (connection d))).

Lemma collect_intro (raw : list Connection) c :
  c ∈ raw →
  connection_providerName c ∈ providerNames →
  ∃ item, item ∈ ConnectionsPage.collect providerNames resolveConnectionData
                   toLocaleString raw
          ∧ ConnectionsPage.listed_id item = connection_id c.
Proof.
  induction raw as [|a raw IH]; [by intros ?%elem_of_nil|].
  intros [->|Hin]%elem_of_cons Hknown; cbn [ConnectionsPage.collect].
  - rewrite decide_True by done. eexists. split; [left|done].
  - destruct (IH Hin Hknown) as (item & Hitem & Hid).
    exists item. split; [|done]. case_decide; [by right|done].
Qed.

(** X17. A deleted connection disappears from the connections page and
    nothing else does: on a connection table with distinct ids, after a
    delete action answered with success for [connectionId], the page
    lists no entry with that id, and every other id listed before is
    still listed. *)
Theorem deleted_connection_leaves_the_page userId formData connectionId answer d :
  NoDup (connection_id <$> connection d) →
  formData !! "connectionId" = Some connectionId →
  fst (Connections.action userId formData d) = Ok answer →
  let d' := snd (Connections.action userId formData d) in
  (∀ item, item ∈ listing_of d' userId →
     ConnectionsPage.listed_id item ≠ connectionId)
  ∧ (∀ item, item ∈ listing_of d userId →
       ConnectionsPage.listed_id item ≠ connectionId →
       ∃ item', item' ∈ listing_of d' userId
                ∧ ConnectionsPage.listed_id item' = ConnectionsPage.listed_id item).
Proof.
  intros Hnodup Hid Hok d'. subst d'.
  destruct (delete_connection_cases userId formData d)
    as [[e Hrun]|(cid & i & row & Hid' & _ & Hfind & Hrun)];
    rewrite Hrun in Hok |- *; [done|]. cbn [snd]. simpl connection.
  rewrite Hid in Hid'. injection Hid' as <-.
  apply list_find_Some in Hfind as (Hi & [Hrowid Hown] & _).
  assert (connection_id row ∉ connection_id <$> delete i (connection d)) as Hgone.
  { rewrite list_fmap_delete. apply NoDup_not_in_delete; [done|].
    by rewrite list_lookup_fmap, Hi. }
  split.
  - intros item Hin Heq. apply collect_elem in Hin as (c & Hc & _ & ->). simpl in Heq.
    apply list_elem_of_filter in Hc as [_ Hc].
    apply Hgone. apply list_elem_of_fmap. exists c. split; [congruence|done].
  - intros item Hin Hne. apply collect_elem in Hin as (c & Hc & Hknown & ->).
    simpl in Hne |- *. apply list_elem_of_filter in Hc as [Hcown Hc].
    apply (collect_intro _ c); [|done].
    apply list_elem_of_filter. split; [done|].
    destruct (list_split_at _ i row Hi) as (Hl & Hdel & _).
    rewrite Hdel. rewrite Hl in Hc.
    apply elem_of_app in Hc as [Hc|Hc]; [apply elem_of_app; by left|].
    apply elem_of_cons in Hc as [->|Hc]; [congruence|].
    apply elem_of_app. by right.
Qed.

End after_delete.

(** * The further properties on the worked scenarios *)

Lemma enable_then_verify_page_shows_drawn_secret_witness :
  unique_target_type (verification Scenario.connections)
  ∧ (let d' :=
       snd (TwoFactorIndex.action (generated_object Scenario.drawn) "verification-1" 0
              "user-42" Scenario.connections) in
     VerifyPage.loader Walkthrough.getTOTPAuthUri Walkthrough.toDataURL
       "notes.example.com" "user-42" d'
     = (Ok (payload (VerifyPage.mkQr
              "otpauth://totp/notes.example.com?secret=12345678901234567890"
              "data:otpauth://totp/notes.example.com?secret=12345678901234567890")),
        d')).
Proof.
  assert (unique_target_type (verification Scenario.connections)) as Hunique
    by apply NoDup_nil_2.
  split; [exact Hunique|].
  destruct (enable_then_verify_page_shows_drawn_secret
              Walkthrough.getTOTPAuthUri Walkthrough.toDataURL Scenario.drawn
              "verification-1" 0 "notes.example.com" "user-42"
              (mkUser "user-42" "kody@example.com" "kody") 0%nat Scenario.connections
              Hunique eq_refl)
    as (args & Hrun & Hsecret & _ & _ & _ & _ & Hissuer & _).
  cbn zeta. rewrite Hrun.
  assert (Walkthrough.getTOTPAuthUri args
          = "otpauth://totp/notes.example.com?secret=12345678901234567890") as ->.
  { unfold Walkthrough.getTOTPAuthUri. rewrite Hissuer, Hsecret. reflexivity. }
  reflexivity.
Defined.

Lemma verify_page_needs_pending_enrolment_witness :
  lookup_verification twoFAVerifyVerificationType "user-42" Scenario.empty = None
  ∧ fst (VerifyPage.loader Walkthrough.getTOTPAuthUri Walkthrough.toDataURL
           "notes.example.com" "user-42" Scenario.empty)
    = Ok (answered (redirect "/settings/profile/two-factor"))
  ∧ (let cancelled :=
       snd (TwoFactorVerify.action Scenario.isCodeValid "user-42" 10000
              TwoFactorVerify.cancelForm Scenario.pending) in
     VerifyPage.loader Walkthrough.getTOTPAuthUri Walkthrough.toDataURL
       "notes.example.com" "user-42" cancelled
     = (Ok (answered (redirect "/settings/profile/two-factor")), cancelled))
  ∧ (let verified :=
       snd (TwoFactorVerify.action Scenario.isCodeValid "user-42" 10000
              (TwoFactorVerify.verifyForm "755224") Scenario.pending) in
     VerifyPage.loader Walkthrough.getTOTPAuthUri Walkthrough.toDataURL
       "notes.example.com" "user-42" verified
     = (Ok (answered (redirect "/settings/profile/two-factor")), verified)).
Proof.
  assert (lookup_verification twoFAVerifyVerificationType "user-42" Scenario.empty = None)
    as Hnone by reflexivity.
  split_and!.
  - exact Hnone.
  - destruct (verify_page_needs_pending_enrolment Walkthrough.getTOTPAuthUri
                Walkthrough.toDataURL Scenario.isCodeValid "notes.example.com" "user-42"
                10000 TwoFactorVerify.cancelForm Scenario.empty) as (_ & Hiff & _).
    apply Hiff. exact Hnone.
  - destruct (verify_page_needs_pending_enrolment Walkthrough.getTOTPAuthUri
                Walkthrough.toDataURL Scenario.isCodeValid "notes.example.com" "user-42"
                10000 TwoFactorVerify.cancelForm Scenario.pending) as (_ & _ & Hcancel & _).
    apply Hcancel. reflexivity.
  - destruct (verify_page_needs_pending_enrolment Walkthrough.getTOTPAuthUri
                Walkthrough.toDataURL Scenario.isCodeValid "notes.example.com" "user-42"
                10000 (TwoFactorVerify.verifyForm "755224") Scenario.pending)
      as (_ & _ & _ & Hverify).
    apply Hverify; [exact scenario_pending_unique|].
    vm_compute. reflexivity.
Defined.

Lemma two_factor_flag_changes_only_by_verification_witness :
  fst (TwoFactorVerify.action Scenario.isCodeValid "user-42" 10000
         (TwoFactorVerify.verifyForm "000000") Scenario.pending)
  ≠ Ok (redirectWithToast "/settings/profile/two-factor" TwoFactorVerify.enabledToast)
  ∧ fst (TwoFactorIndex.loader "user-42"
           (snd (TwoFactorVerify.action Scenario.isCodeValid "user-42" 10000
                   (TwoFactorVerify.verifyForm "000000") Scenario.pending)))
    = fst (TwoFactorIndex.loader "user-42" Scenario.pending)
  ∧ fst (TwoFactorIndex.loader "user-42" Scenario.pending)
    = Ok (json (Is2FAEnabled false) 200).
Proof.
  assert (fst (TwoFactorVerify.action Scenario.isCodeValid "user-42" 10000
                 (TwoFactorVerify.verifyForm "000000") Scenario.pending)
          ≠ Ok (redirectWithToast "/settings/profile/two-factor"
                  TwoFactorVerify.enabledToast)) as Hrejected.
  { assert (fst (TwoFactorVerify.action Scenario.isCodeValid "user-42" 10000
                   (TwoFactorVerify.verifyForm "000000") Scenario.pending)
            = Ok (json (Reply [invalidCodeIssue]) 400)) as ->
      by (vm_compute; reflexivity).
    discriminate. }
  destruct (two_factor_flag_changes_only_by_verification Scenario.isCodeValid
              (generated_object Scenario.drawn) "verification-1" 10000 "user-42"
              (TwoFactorVerify.verifyForm "000000") "user-42" Scenario.pending)
    as [_ Hsubmitted].
  split_and!; [exact Hrejected|exact (Hsubmitted (or_intror Hrejected))|].
  vm_compute. reflexivity.
Defined.

Lemma two_factor_actions_keep_unique_key_witness :
  unique_target_type (verification Scenario.pending)
  ∧ unique_target_type
      (verification
         (snd (TwoFactorVerify.action Scenario.isCodeValid "user-42" 10000
                 (TwoFactorVerify.verifyForm "755224") Scenario.pending))).
Proof.
  split; [exact scenario_pending_unique|].
  exact (proj2 (two_factor_actions_keep_unique_key Scenario.isCodeValid
                  (generated_object Scenario.drawn) "verification-1" 10000 "user-42"
                  (TwoFactorVerify.verifyForm "755224") Scenario.pending
                  scenario_pending_unique)).
Defined.

Lemma walkthrough_enabled_and_pending_rows :
  verification Walkthrough.enabled_and_pending
  = [ <["type" := VStr "2fa"]> Scenario.pending_row; Walkthrough.second_pending_row ].
Proof. by_evaluation. Qed.

Lemma verify_when_already_enabled_hits_unique_key_witness :
  lookup_verification twoFAVerificationType "user-42" Walkthrough.enabled_and_pending
  = Some (<["type" := VStr "2fa"]> Scenario.pending_row)
  ∧ Scenario.isCodeValid "755224" "2fa-verify" "user-42" 10000
      (verification Walkthrough.enabled_and_pending) = true
  ∧ TwoFactorVerify.action Scenario.isCodeValid "user-42" 10000
      (TwoFactorVerify.verifyForm "755224") Walkthrough.enabled_and_pending
    = (Throw P2002, Walkthrough.enabled_and_pending).
Proof.
  assert (list_find (target_type twoFAVerifyVerificationType "user-42")
            (verification Walkthrough.enabled_and_pending)
          = Some (1%nat, Walkthrough.second_pending_row)) as Hpending by by_evaluation.
  assert (lookup_verification twoFAVerificationType "user-42"
            Walkthrough.enabled_and_pending
          = Some (<["type" := VStr "2fa"]> Scenario.pending_row)) as Hmarker
    by by_evaluation.
  assert (Scenario.isCodeValid "755224" "2fa-verify" "user-42" 10000
            (verification Walkthrough.enabled_and_pending) = true) as Hvalid
    by (vm_compute; reflexivity).
  split_and!; [exact Hmarker|exact Hvalid|].
  exact (verify_when_already_enabled_hits_unique_key Scenario.isCodeValid "user-42"
           10000 "755224" Walkthrough.enabled_and_pending 1%nat
           Walkthrough.second_pending_row _ Hpending Hmarker eq_refl Hvalid).
Defined.

Lemma sign_out_twice_is_sign_out_once_witness :
  let once := Profile.signOutOfSessionsAction (Some "s2") "user-42" Scenario.sessions in
  Profile.signOutOfSessionsAction (Some "s2") "user-42" (snd once) = once.
Proof.
  assert ("s2" ≠ "") as Hcurrent by done.
  exact (proj1 (sign_out_twice_is_sign_out_once "s2" "user-42" Scenario.sessions Hcurrent)).
Defined.

Lemma profile_page_flags_agree_witness :
  ∃ data,
    fst (ProfilePage.loader Walkthrough.user_name Walkthrough.user_image 50 "user-7"
           Scenario.connections) = Ok data
    ∧ ProfilePage.data_email data = "hannah@example.com"
    ∧ ProfilePage.hasPassword data = true
    ∧ Connections.userCanDeleteConnections "user-7" Scenario.connections
      = (Ok true, Scenario.connections)
    ∧ fst (ProfilePage.loader Walkthrough.user_name Walkthrough.user_image 50 "nobody"
             Scenario.connections) = Throw P2025.
Proof.
  destruct (profile_page_flags_agree Walkthrough.user_name Walkthrough.user_image 50
              "user-7" Scenario.connections) as (_ & _ & Hfound).
  destruct (Hfound 1%nat (mkUser "user-7" "hannah@example.com" "hannah") eq_refl)
    as (data & Hrun & Hemail & _ & Hpw & Hcan).
  assert (ProfilePage.hasPassword data = true) as Hflag.
  { apply Hpw. by_evaluation. }
  exists data. split_and!; [exact Hrun|exact Hemail|exact Hflag|exact (Hcan Hflag)|].
  destruct (profile_page_flags_agree Walkthrough.user_name Walkthrough.user_image 50
              "nobody" Scenario.connections) as (_ & Hmissing & _).
  apply Hmissing. reflexivity.
Defined.

Lemma profile_page_after_sign_out_witness :
  NoDup (session_id <$> session Walkthrough.signed_in)
  ∧ ∃ data,
      ProfilePage.loader Walkthrough.user_name Walkthrough.user_image 50 "user-42"
        (snd (Profile.signOutOfSessionsAction (Some "s2") "user-42" Walkthrough.signed_in))
      = (Ok data,
         snd (Profile.signOutOfSessionsAction (Some "s2") "user-42" Walkthrough.signed_in))
      ∧ ProfilePage.data_count_sessions data = 1%nat
      ∧ ProfilePage.otherSessionsCount data = 0.
Proof.
  assert (NoDup (session_id <$> session Walkthrough.signed_in)) as Hnodup by by_evaluation.
  assert ("s2" ≠ "") as Hcurrent by done.
  split; [exact Hnodup|].
  destruct (profile_page_after_sign_out Walkthrough.user_name Walkthrough.user_image 50
              "s2" "user-42" Walkthrough.signed_in 0%nat
              (mkUser "user-42" "kody@example.com" "kody") Hnodup Hcurrent eq_refl)
    as (data & Hrun & _ & _ & Hcurrent_counts).
  exists data. split; [exact Hrun|]. apply Hcurrent_counts. by_evaluation.
Defined.

Lemma connections_page_lists_own_connections_witness :
  ∃ listing allowed,
    fst (ConnectionsPage.loader Walkthrough.providerNames
           Walkthrough.resolveConnectionData Walkthrough.toLocaleString "user-9"
           Walkthrough.two_connections) = Ok (listing, allowed)
    ∧ ConnectionsPage.listed_id <$> listing = ["c3"].
Proof.
  destruct (connections_page_lists_own_connections Walkthrough.providerNames
              Walkthrough.resolveConnectionData Walkthrough.toLocaleString "user-9"
              Walkthrough.two_connections) as (_ & listing & allowed & Hrun & Hids & _).
  exists listing, allowed. split; [exact Hrun|]. rewrite Hids. by vm_compute.
Defined.

Lemma connections_page_flag_matches_guard_witness :
  fst (ConnectionsPage.loader Walkthrough.providerNames Walkthrough.resolveConnectionData
         Walkthrough.toLocaleString "user-42" Scenario.connections)
  = Ok ([ConnectionsPage.mkListed "github" "c1" "gh-42" None "1/1/1970, 12:00:00 AM"],
        false)
  ∧ Connections.action "user-42" (Scenario.deleteForm "c1") Scenario.connections
    = (Throw (ThrownResponse 400
         "You cannot delete your last connection unless you have a password."),
       Scenario.connections)
  ∧ fst (Connections.action "user-7" (Scenario.deleteForm "c2") Scenario.connections)
    = Ok (json StatusSuccess 200).
Proof.
  assert (fst (ConnectionsPage.loader Walkthrough.providerNames
                 Walkthrough.resolveConnectionData Walkthrough.toLocaleString "user-42"
                 Scenario.connections)
          = Ok ([ConnectionsPage.mkListed "github" "c1" "gh-42" None
                   "1/1/1970, 12:00:00 AM"], false)) as Hpage by reflexivity.
  split_and!; [exact Hpage| |].
  - exact (proj1 (connections_page_flag_matches_guard Walkthrough.providerNames
                    Walkthrough.resolveConnectionData Walkthrough.toLocaleString
                    "user-42" (Scenario.deleteForm "c1") Scenario.connections _ false
                    Hpage eq_refl) eq_refl).
  - assert (fst (ConnectionsPage.loader Walkthrough.providerNames
                   Walkthrough.resolveConnectionData Walkthrough.toLocaleString "user-7"
                   Scenario.connections)
            = Ok ([ConnectionsPage.mkListed "github" "c2" "gh-7" None
                     "1/1/1970, 12:00:00 AM"], true)) as Hpage7 by reflexivity.
    destruct (proj2 (connections_page_flag_matches_guard Walkthrough.providerNames
                       Walkthrough.resolveConnectionData Walkthrough.toLocaleString
                       "user-7" (Scenario.deleteForm "c2") Scenario.connections _ true
                       Hpage7 eq_refl) eq_refl
                (ConnectionsPage.mkListed "github" "c2" "gh-7" None
                   "1/1/1970, 12:00:00 AM"))
      as (i & row & _ & _ & _ & ->); [by left|reflexivity|reflexivity].
Defined.

Lemma delete_connection_keeps_a_way_in_witness :
  fst (Connections.action "user-9" (Scenario.deleteForm "c3") Walkthrough.two_connections)
  = Ok (json StatusSuccess 200)
  ∧ ¬ has_password "user-9" Walkthrough.two_connections
  ∧ connection_count "user-9" Walkthrough.two_connections = 2%nat
  ∧ connection_count "user-9"
      (snd (Connections.action "user-9" (Scenario.deleteForm "c3")
              Walkthrough.two_connections)) = 1%nat.
Proof.
  assert (fst (Connections.action "user-9" (Scenario.deleteForm "c3")
                 Walkthrough.two_connections) = Ok (json StatusSuccess 200)) as Hok
    by reflexivity.
  assert (connection_count "user-9" Walkthrough.two_connections = 2%nat) as Hbefore
    by reflexivity.
  destruct (delete_connection_keeps_a_way_in "user-9" (Scenario.deleteForm "c3")
              Walkthrough.two_connections _ Hok) as (Hcount & _ & _).
  split_and!; [exact Hok|by_evaluation|exact Hbefore|].
  rewrite Hbefore in Hcount. exact (Nat.succ_inj _ _ Hcount).
Defined.

Lemma delete_connection_leaves_others_alone_witness :
  Connections.action "user-7" (Scenario.deleteForm "c1") Scenario.connections
  = (Throw P2025, Scenario.connections)
  ∧ connections_of_others "user-7"
      (snd (Connections.action "user-7" (Scenario.deleteForm "c2") Scenario.connections))
    = [ mkConnection "c1" "user-42" "github" "gh-42" 0 ].
Proof.
  split.
  - destruct (delete_connection_leaves_others_alone "user-7" (Scenario.deleteForm "c1")
                Scenario.connections) as (_ & _ & Hforeign).
    destruct (Hforeign "c1" eq_refl) as [[e He] Hsame]; [by_evaluation|].
    apply injective_projections; [reflexivity|exact Hsame].
  - destruct (delete_connection_leaves_others_alone "user-7" (Scenario.deleteForm "c2")
                Scenario.connections) as (-> & _).
    reflexivity.
Defined.

Lemma change_email_rejection_prepares_nothing_witness :
  ChangeEmail.action hmac_sha1 "SHA-1" 6 "0123456789" Scenario.EmailSchema
    Scenario.sendEmail "/verify" "user-42" "12345678901234567890" "verification-9" 0
    Walkthrough.takenForm Scenario.connections
  = (Ok (json (Reply [CustomIssue "email" "This email is already in use."]) 400),
     Scenario.connections).
Proof.
  destruct (change_email_rejection_prepares_nothing hmac_sha1 "SHA-1" 6 "0123456789"
              Scenario.EmailSchema Scenario.sendEmail "/verify" "user-42"
              "12345678901234567890" "verification-9" 0 Walkthrough.takenForm
              Scenario.connections) as [_ Htaken].
  exact (Htaken "hannah@example.com" 1%nat
           (mkUser "user-7" "hannah@example.com" "hannah") eq_refl eq_refl).
Defined.

Lemma note_description_is_bounded_witness :
  (100 < length (NotePage.note_content Walkthrough.long_note))%nat
  ∧ length (snd (NotePage.meta (Some Walkthrough.long_note)
                   (Some (NotePage.units "kody")) [])) = 100%nat
  ∧ snd (NotePage.meta (Some (NotePage.mkNote (NotePage.units "Groceries")
                                (NotePage.units "milk")))
           (Some (NotePage.units "kody")) [])
    = NotePage.units "No content".
Proof.
  assert (100 < length (NotePage.note_content Walkthrough.long_note))%nat as Hlong
    by (vm_compute; lia).
  split_and!; [exact Hlong| |].
  - destruct (note_description_is_bounded (Some Walkthrough.long_note)
                (Some (NotePage.units "kody")) []) as (_ & Hcut & _).
    exact (proj1 (Hcut _ eq_refl Hlong)).
  - destruct (note_description_is_bounded
                (Some (NotePage.mkNote (NotePage.units "Groceries")
                         (NotePage.units "milk")))
                (Some (NotePage.units "kody")) []) as (_ & _ & Hshort & _).
    apply (Hshort _ eq_refl). vm_compute. lia.
Defined.

Lemma enable_then_cancel_is_cancel_witness :
  unique_target_type (verification Scenario.empty)
  ∧ snd (TwoFactorVerify.action Scenario.isCodeValid "user-42" 10000
           TwoFactorVerify.cancelForm
           (snd (TwoFactorIndex.action (generated_object Scenario.drawn)
                   "verification-1" 0 "user-42" Scenario.empty)))
    = Scenario.empty.
Proof.
  assert (unique_target_type (verification Scenario.empty)) as Hunique
    by apply NoDup_nil_2.
  split; [exact Hunique|].
  exact (proj2 (enable_then_cancel_is_cancel Scenario.isCodeValid
                  (generated_object Scenario.drawn) "verification-1" 0 10000 "user-42"
                  Scenario.empty Hunique) eq_refl).
Defined.

Lemma deleted_connection_leaves_the_page_witness :
  NoDup (connection_id <$> connection Walkthrough.two_connections)
  ∧ fst (Connections.action "user-9" (Scenario.deleteForm "c3")
           Walkthrough.two_connections) = Ok (json StatusSuccess 200)
  ∧ ∀ item,
      item ∈ ConnectionsPage.collect Walkthrough.providerNames
               Walkthrough.resolveConnectionData Walkthrough.toLocaleString
               (filter (λ c, connection_userId c = "user-9")
                  (connection (snd (Connections.action "user-9"
                                      (Scenario.deleteForm "c3")
                                      Walkthrough.two_connections)))) →
      ConnectionsPage.listed_id item ≠ "c3".
Proof.
  assert (NoDup (connection_id <$> connection Walkthrough.two_connections)) as Hnodup
    by by_evaluation.
  assert (fst (Connections.action "user-9" (Scenario.deleteForm "c3")
                 Walkthrough.two_connections) = Ok (json StatusSuccess 200)) as Hok
    by reflexivity.
  split_and!; [exact Hnodup|exact Hok|].
  exact (proj1 (deleted_connection_leaves_the_page Walkthrough.providerNames
                  Walkthrough.resolveConnectionData Walkthrough.toLocaleString "user-9"
                  (Scenario.deleteForm "c3") "c3" _ Walkthrough.two_connections
                  Hnodup eq_refl Hok)).
Defined.
